(** * suelections: the voting API's models and handlers

    A shallow embedding of package [server]: the models with the request
    validator, and the handlers.  Strings are byte strings, as in Go: [String.length]
    is Go's [len].  A Go slice is an optional list, so that the nil slice and
    the empty slice stay apart.  The document store, the JSON decoder and the
    random generator are outside the package; what they hand to the handlers
    is an explicit input ([Env], [Request]). *)

From Stdlib Require Import ZArith NArith String Ascii List Lia Bool.
From stdpp Require Import base option strings gmap list sorting.

Local Open Scope string_scope.
Local Open Scope nat_scope.
Local Open Scope list_scope.
Local Open Scope stdpp_scope.

(** ** The models *)

Definition AnswerMaxLength : nat := 280.

Inductive JSendStatus := Success | Fail | Error.

Definition JSendStatus_string (s : JSendStatus) : string :=
  match s with
  | Success => "success"
  | Fail => "fail"
  | Error => "error"
  end.

(** [primitive.ObjectID] is [[12]byte]; the 96-bit number the bytes spell,
    most significant byte first. *)
Definition ObjectID := N.

(** A slice: [None] is Go's nil, [Some []] an empty slice that is not nil. *)
Definition Slice (T : Type) := option (list T).

Definition elems {T} (x : Slice T) : list T := default [] x.
Definition len {T} (x : Slice T) : nat := length (elems x).
Definition append {T} (x : Slice T) (v : T) : Slice T := Some (elems x ++ [v]).
(** [x[i]]; [None] is the run-time panic "index out of range". *)
Definition index {T} (x : Slice T) (i : nat) : option T := elems x !! i.

Record Candidate := mkCandidate {
  Candidate_Id : ObjectID;
  Candidate_Name : string;
  Candidate_Votes : Z;
  Candidate_Answers : Slice string
}.

Record LeaderboardEntry := mkLeaderboardEntry {
  LeaderboardEntry_Id : ObjectID;
  LeaderboardEntry_Name : string;
  LeaderboardEntry_Votes : Z
}.

Record Answer := mkAnswer {
  Answer_Id : ObjectID;
  Answer_Name : string;
  Answer_Votes : Z;
  Answer_Answer : string
}.

(** What the handlers put under [Response.Data] ([any] in the source). *)
Inductive AnyValue :=
| AnyCandidates (candidates : Slice Candidate)
| AnyAnswers (answers : list (Slice Answer))
| AnyLeaderboard (entries : Slice LeaderboardEntry).

Inductive Data :=
| DataNil
| DataStrings (m : gmap string string)
| DataAny (m : gmap string AnyValue).

Record Response := mkResponse {
  Response_Status : JSendStatus;
  Response_Data : Data
}.

Definition NewResponseSuccess (data : Data) : Response :=
  {| Response_Status := Success; Response_Data := data |}.

Definition NewResponseFail (data : Data) : Response :=
  {| Response_Status := Fail; Response_Data := data |}.

Record ErrorResponse := mkErrorResponse {
  ErrorResponse_Status : JSendStatus;
  ErrorResponse_Message : string
}.

Definition NewErrorResponse (message : string) : ErrorResponse :=
  {| ErrorResponse_Status := Error; ErrorResponse_Message := message |}.

(** The two implementations of [render.Renderer]. *)
Inductive Renderer :=
| RenderResponse (response : Response)
| RenderErrorResponse (response : ErrorResponse).

Definition Renderer_Status (v : Renderer) : JSendStatus :=
  match v with
  | RenderResponse r => Response_Status r
  | RenderErrorResponse r => ErrorResponse_Status r
  end.

Record CandidateRequest := mkCandidateRequest {
  CandidateRequest_Name : string;
  CandidateRequest_Answers : Slice string
}.

(** Go [error] values: the three sentinels of the package, and errors made
    by the libraries (decoder, driver), which are never one of the three. *)
Inductive error :=
| ErrMissingName
| ErrMissingAnswers
| ErrAnswersTooLong
| ErrExternal (message : string).

Definition error_Error (e : error) : string :=
  match e with
  | ErrMissingName => "missing name"
  | ErrMissingAnswers => "missing answers"
  | ErrAnswersTooLong => "one or more answers are too long"
  | ErrExternal message => message
  end.

(** [errors.Is(err, target)] for a sentinel [target]. *)
Definition errors_Is (err : option error) (target : error) : bool :=
  match err, target with
  | Some ErrMissingName, ErrMissingName => true
  | Some ErrMissingAnswers, ErrMissingAnswers => true
  | Some ErrAnswersTooLong, ErrAnswersTooLong => true
  | _, _ => false
  end.

(** The [for _, answer := range request.Answers] loop of [Bind]. *)
Fixpoint Bind_answers (answers : list string) : option error :=
  match answers with
  | [] => None
  | answer :: rest =>
      if AnswerMaxLength <? String.length answer then Some ErrAnswersTooLong
      else Bind_answers rest
  end.

Definition Bind (request : CandidateRequest) : option error :=
  if String.eqb (CandidateRequest_Name request) EmptyString then Some ErrMissingName
  else match CandidateRequest_Answers request with
       | None => Some ErrMissingAnswers
       | Some answers => Bind_answers answers
       end.

(** ** What the handlers are given *)

(** [primitive.ObjectIDFromHex] of the driver: exactly 24 hexadecimal
    digits, in either case; anything else is an error ([None]). *)
Definition fromHexChar (c : ascii) : option N :=
  let n := N_of_ascii c in
  if ((48 <=? n) && (n <=? 57))%N then Some (n - 48)%N
  else if ((97 <=? n) && (n <=? 102))%N then Some (n - 97 + 10)%N
  else if ((65 <=? n) && (n <=? 70))%N then Some (n - 65 + 10)%N
  else None.

Fixpoint hex_value (s : string) (acc : N) : option N :=
  match s with
  | EmptyString => Some acc
  | String c rest =>
      match fromHexChar c with
      | Some d => hex_value rest (acc * 16 + d)%N
      | None => None
      end
  end.

Definition ObjectIDFromHex (s : string) : option ObjectID :=
  if String.length s =? 24 then hex_value s 0%N else None.

(** A stored document, with the four fields the handlers write and read.
    ["answers"] is null when a nil slice was inserted.  ["votes"] is the
    store's integer: [$inc] widens it instead of wrapping, so it is in [Z]
    and need not fit the [int32] of [Candidate.Votes]. *)
Record Document := mkDocument {
  doc_id : ObjectID;
  doc_name : string;
  doc_answers : Slice string;
  doc_votes : Z
}.

(** What the outside world does during one request. *)
Record Env := mkEnv {
  find_err : bool;            (* [collection.Find] returns an error *)
  cursor_break : option nat;  (* the cursor fails after that many documents *)
  insert_err : bool;          (* [collection.InsertOne] returns an error *)
  update_err : bool;          (* [collection.UpdateOne] returns an error *)
  new_oid : ObjectID;         (* the ["_id"] the driver gives an inserted document *)
  entropy : nat → list nat    (* raw draws of the generator seeded by the k-th [randomize] *)
}.

(** The request: route parameters, request-scoped values, the status set by
    [render.Status], and what [render.Decode] makes of the body: the request
    structure as the decoder leaves it, and the decoder's error, if any. *)
Record Request := mkRequest {
  URLParams : gmap string string;
  Context : gmap string string;
  Status : option nat;
  Decoded : CandidateRequest;
  DecodeErr : option string
}.

Definition chi_URLParam (r : Request) (key : string) : string :=
  default EmptyString (URLParams r !! key).

Definition Context_Value (r : Request) (key : string) : option string :=
  Context r !! key.

Definition WithValue (r : Request) (key val : string) : Request :=
  {| URLParams := URLParams r; Context := <[key := val]> (Context r);
     Status := Status r; Decoded := Decoded r; DecodeErr := DecodeErr r |}.

Definition http_StatusOK : nat := 200.
Definition http_StatusCreated : nat := 201.

Definition render_Status (r : Request) (status : nat) : Request :=
  {| URLParams := URLParams r; Context := Context r;
     Status := Some status; Decoded := Decoded r; DecodeErr := DecodeErr r |}.

(** How a handler invocation ends: one rendered response, or a panic. *)
Inductive Panic :=
| PanicIndexOutOfRange (i length : nat)
| PanicInterfaceConversion.

Inductive Outcome :=
| Rendered (status : nat) (v : Renderer)
| Panicked (p : Panic).

Definition render_Render (r : Request) (v : Renderer) : Outcome :=
  Rendered (default http_StatusOK (Status r)) v.

(** [render.Bind]: decode the body into [data], then call [data.Bind]. *)
Definition render_Bind (r : Request) : CandidateRequest * option error :=
  match DecodeErr r with
  | Some message => (Decoded r, Some (ErrExternal message))
  | None => (Decoded r, Bind (Decoded r))
  end.

Abbreviation Database := (gmap string (list Document)).

Definition Handler : Type := Env → Request → Database → Database * Outcome.

(** Loop bodies either go on with a new state or leave the handler. *)
Inductive Flow (A : Type) :=
| Continue (a : A)
| Halt (o : Outcome).
Arguments Continue {A} a.
Arguments Halt {A} o.

#[global] Instance Flow_ret : MRet Flow := λ A a, Continue a.
#[global] Instance Flow_bind : MBind Flow := λ A B f m,
  match m with
  | Continue a => f a
  | Halt o => Halt o
  end.

Fixpoint for_each {S X} (xs : list X) (body : X → S → Flow S) (s : S) : Flow S :=
  match xs with
  | [] => Continue s
  | x :: rest => s' ← body x s; for_each rest body s'
  end.

(** *** The store *)

Definition collection (db : Database) (name : string) : list Document :=
  default [] (db !! name).

(** [options.Find().SetSort(bson.D{{"votes", direction}})]. *)
Inductive SortSpec := SortVotes (direction : Z).

Definition votes_ge (a b : Document) : Prop := (doc_votes b ≤ doc_votes a)%Z.
Definition votes_le (a b : Document) : Prop := (doc_votes a ≤ doc_votes b)%Z.

#[global] Instance votes_ge_dec : RelDecision votes_ge.
Proof. intros a b. unfold votes_ge. apply _. Defined.
#[global] Instance votes_le_dec : RelDecision votes_le.
Proof. intros a b. unfold votes_le. apply _. Defined.

Definition store_sort (opts : option SortSpec) (docs : list Document) : list Document :=
  match opts with
  | None => docs
  | Some (SortVotes direction) =>
      if (direction <? 0)%Z then merge_sort votes_ge docs
      else merge_sort votes_le docs
  end.

(** [collection.Find] with the empty filter.  The cursor is the list of the
    documents [cur.Next] delivers before it returns false, be it at the end
    of the result or at a failure of the cursor. *)
Definition Find (env : Env) (db : Database) (coll : string) (opts : option SortSpec)
  : error + list Document :=
  if find_err env then inl (ErrExternal "find")
  else
    let docs := store_sort opts (collection db coll) in
    inr (match cursor_break env with
         | Some n => take n docs
         | None => docs
         end).

(** [collection.InsertOne] of [bson.D{{"name", name}, {"answers", answers},
    {"votes", votes}}]: the driver adds the ["_id"], which is unique in a
    collection. *)
Definition InsertOne (env : Env) (db : Database) (coll : string)
    (name : string) (answers : Slice string) (votes : Z)
  : Database * option error :=
  let docs := collection db coll in
  if insert_err env || bool_decide (new_oid env ∈ (doc_id <$> docs))
  then (db, Some (ErrExternal "insert"))
  else (<[coll := docs ++ [mkDocument (new_oid env) name answers votes]]> db, None).

(** [bson.D{{"$inc", bson.D{{"votes", by}}}}]. *)
Inductive Update := IncVotes (by_ : Z).

Definition apply_update (u : Update) (d : Document) : Document :=
  match u with
  | IncVotes by_ =>
      {| doc_id := doc_id d; doc_name := doc_name d;
         doc_answers := doc_answers d; doc_votes := (doc_votes d + by_)%Z |}
  end.

(** The first document matching [bson.M{"_id": id}] is updated, in one step
    of the store. *)
Fixpoint update_first (id : ObjectID) (u : Update) (docs : list Document) : list Document :=
  match docs with
  | [] => []
  | d :: rest =>
      if (doc_id d =? id)%N then apply_update u d :: rest
      else d :: update_first id u rest
  end.

Definition UpdateOne (env : Env) (db : Database) (coll : string)
    (id : ObjectID) (u : Update) : Database * option error :=
  if update_err env then (db, Some (ErrExternal "update"))
  else (alter (update_first id u) coll db, None).

(** [cur.Decode]: the integer under ["votes"] must fit the [int32] field. *)
Definition fits_int32 (z : Z) : bool :=
  ((-2147483648 <=? z) && (z <=? 2147483647))%Z.

Definition Decode_Candidate (d : Document) : option Candidate :=
  if fits_int32 (doc_votes d)
  then Some (mkCandidate (doc_id d) (doc_name d) (doc_votes d) (doc_answers d))
  else None.

Definition Decode_LeaderboardEntry (d : Document) : option LeaderboardEntry :=
  if fits_int32 (doc_votes d)
  then Some (mkLeaderboardEntry (doc_id d) (doc_name d) (doc_votes d))
  else None.

(** *** math/rand *)

(** [rand.Shuffle n swap]: for [i] from [n-1] down to 1, draw [j] in
    [0, i] and call [swap i j].  The draw is the next raw draw reduced
    modulo [i+1]. *)
Fixpoint Shuffle_from {X} (i : nat) (swap : nat → nat → X → X)
    (rnd : list nat) (x : X) : X :=
  match i with
  | 0 => x
  | S i' =>
      let j := Nat.modulo (hd 0 rnd) (i + 1) in
      Shuffle_from i' swap (tl rnd) (swap i j x)
  end.

Definition Shuffle {X} (n : nat) (swap : nat → nat → X → X)
    (rnd : list nat) (x : X) : X :=
  Shuffle_from (n - 1) swap rnd x.

(** ** The handlers *)

Definition questionCount : nat := 4.

Definition dquote : string := String (ascii_of_nat 34) EmptyString.

(** [fmt.Sprintf] of the message of [BranchCtx]. *)
Definition invalid_branch_message (branch : string) : string :=
  "Invalid branch " +:+ dquote +:+ branch +:+ dquote +:+ "; must be either "
  +:+ dquote +:+ "senate" +:+ dquote +:+ " or " +:+ dquote +:+ "treasury" +:+ dquote.

Definition BranchCtx (next : Handler) : Handler := λ env r db,
  let branch := chi_URLParam r "branch" in
  if negb (String.eqb branch "senate") && negb (String.eqb branch "treasury") then
    let data := DataStrings {[ "message" := invalid_branch_message branch ]} in
    (db, render_Render r (RenderResponse (NewResponseFail data)))
  else
    let ctx := WithValue r "branch" branch in
    next env ctx db.

(** [x[i], x[j] = x[j], x[i]]; [Shuffle] calls it with [j <= i < len(x)]. *)
Definition swap_elems {T} (i j : nat) (x : list T) : list T :=
  match x !! i, x !! j with
  | Some xi, Some xj => <[j := xi]> (<[i := xj]> x)
  | _, _ => x
  end.

(** [randomize] shuffles the slice in place; [rnd] are the raw draws of the
    generator it has just seeded from the clock. *)
Definition randomize {T} (rnd : list nat) (x : Slice T) : Slice T :=
  (λ l, Shuffle (length l) swap_elems rnd l) <$> x.

(** The body of the cursor loop of [GetCandidates]. *)
Definition GetCandidates_doc (r : Request) (doc : Document)
    (candidates : Slice Candidate) : Flow (Slice Candidate) :=
  match Decode_Candidate doc with
  | None =>
      Halt (render_Render r (RenderErrorResponse
              (NewErrorResponse "Could not decode into candidate")))
  | Some candidate => Continue (append candidates candidate)
  end.

Definition GetCandidates : Handler := λ env r db,
  match Context_Value r "branch" with
  | None => (db, Panicked PanicInterfaceConversion)
  | Some branch =>
      match Find env db branch None with
      | inl _ =>
          (db, render_Render r (RenderErrorResponse (NewErrorResponse "Could not get cursor from db")))
      | inr cur =>
          match for_each cur (GetCandidates_doc r) None with
          | Halt o => (db, o)
          | Continue candidates =>
              let candidates := randomize (entropy env 0) candidates in
              let data := DataAny {[ "candidates" := AnyCandidates candidates ]} in
              (db, render_Render r (RenderResponse (NewResponseSuccess data)))
          end
      end
  end.

Definition PostCandidates : Handler := λ env r db,
  let '(data, err) := render_Bind r in
  if errors_Is err ErrMissingName then
    (db, render_Render r (RenderResponse (NewResponseFail
           (DataStrings {[ "name" := from_option error_Error EmptyString err ]}))))
  else if errors_Is err ErrMissingAnswers || errors_Is err ErrAnswersTooLong then
    (db, render_Render r (RenderResponse (NewResponseFail
           (DataStrings {[ "answers" := from_option error_Error EmptyString err ]}))))
  else
    match Context_Value r "branch" with
    | None => (db, Panicked PanicInterfaceConversion)
    | Some branch =>
        match InsertOne env db branch
                (CandidateRequest_Name data) (CandidateRequest_Answers data) 0 with
        | (db', Some _) =>
            (db', render_Render r (RenderErrorResponse
                    (NewErrorResponse "There was an error adding the candidate to the database.")))
        | (db', None) =>
            let r := render_Status r http_StatusCreated in
            (db', render_Render r (RenderResponse (NewResponseSuccess DataNil)))
        end
    end.

Definition PatchVotes : Handler := λ env r db,
  match ObjectIDFromHex (chi_URLParam r "id") with
  | None =>
      (db, render_Render r (RenderErrorResponse (NewErrorResponse "Could not get ObjectID")))
  | Some id =>
      match Context_Value r "branch" with
      | None => (db, Panicked PanicInterfaceConversion)
      | Some branch =>
          match UpdateOne env db branch id (IncVotes 1) with
          | (db', Some _) =>
              (db', render_Render r (RenderErrorResponse
                      (NewErrorResponse "Could not increment votes")))
          | (db', None) =>
              (db', render_Render r (RenderResponse (NewResponseSuccess DataNil)))
          end
      end
  end.

(** The body of the inner loop of [GetAnswers], for question [i]. *)
Definition GetAnswers_question (candidate : Candidate) (i : nat)
    (answers : list (Slice Answer)) : Flow (list (Slice Answer)) :=
  match index (Candidate_Answers candidate) i with
  | None => Halt (Panicked (PanicIndexOutOfRange i (len (Candidate_Answers candidate))))
  | Some text =>
      let answer :=
        {| Answer_Id := Candidate_Id candidate;
           Answer_Name := Candidate_Name candidate;
           Answer_Votes := Candidate_Votes candidate;
           Answer_Answer := text |} in
      Continue (<[i := append (answers !!! i) answer]> answers)
  end.

(** [var answers [questionCount][]Answer]: an array of nil slices. *)
Definition answers_zero : list (Slice Answer) := replicate questionCount None.

(** The body of the cursor loop of [GetAnswers]. *)
Definition GetAnswers_doc (r : Request) (doc : Document)
    (answers : list (Slice Answer)) : Flow (list (Slice Answer)) :=
  match Decode_Candidate doc with
  | None =>
      Halt (render_Render r (RenderErrorResponse
              (NewErrorResponse "Could not decode into candidate")))
  | Some candidate =>
      for_each (seq 0 questionCount) (GetAnswers_question candidate) answers
  end.

Definition GetAnswers : Handler := λ env r db,
  match Context_Value r "branch" with
  | None => (db, Panicked PanicInterfaceConversion)
  | Some branch =>
      match Find env db branch None with
      | inl _ =>
          (db, render_Render r (RenderErrorResponse (NewErrorResponse "Could not get cursor from db")))
      | inr cur =>
          match for_each cur (GetAnswers_doc r) answers_zero with
          | Halt o => (db, o)
          | Continue answers =>
              let answers :=
                foldl (λ answers i, <[i := randomize (entropy env i) (answers !!! i)]> answers)
                      answers (seq 0 questionCount) in
              let data := DataAny {[ "answers" := AnyAnswers answers ]} in
              (db, render_Render r (RenderResponse (NewResponseSuccess data)))
          end
      end
  end.

(** The body of the cursor loop of [GetLeaderboard]. *)
Definition GetLeaderboard_doc (r : Request) (doc : Document)
    (leaderboardEntries : Slice LeaderboardEntry) : Flow (Slice LeaderboardEntry) :=
  match Decode_LeaderboardEntry doc with
  | None =>
      Halt (render_Render r (RenderErrorResponse
              (NewErrorResponse "Could not decode into leaderboard entry")))
  | Some leaderboardEntry => Continue (append leaderboardEntries leaderboardEntry)
  end.

Definition GetLeaderboard : Handler := λ env r db,
  match Context_Value r "branch" with
  | None => (db, Panicked PanicInterfaceConversion)
  | Some branch =>
      let opts := Some (SortVotes (-1)) in
      match Find env db branch opts with
      | inl _ =>
          (db, render_Render r (RenderErrorResponse (NewErrorResponse "Could not get cursor from db")))
      | inr cur =>
          match for_each cur (GetLeaderboard_doc r) None with
          | Halt o => (db, o)
          | Continue leaderboardEntries =>
              let data := DataAny {[ "leaderboard" := AnyLeaderboard leaderboardEntries ]} in
              (db, render_Render r (RenderResponse (NewResponseSuccess data)))
          end
      end
  end.

Definition GetQuestions : Handler := λ env r db,
  (db, render_Render r (RenderErrorResponse (NewErrorResponse "Not implemented"))).

(** ** Sample requests and stores *)

Definition sample_env : Env :=
  {| find_err := false; cursor_break := None; insert_err := false;
     update_err := false; new_oid := 7%N; entropy := λ k, [5; 3; 8; 1; 9; 2] |}.

Definition sample_request (branch id : string) (data : CandidateRequest) : Request :=
  {| URLParams := {[ "branch" := branch; "id" := id ]};
     Context := {[ "branch" := branch ]};
     Status := None; Decoded := data; DecodeErr := None |}.

Definition long_answer : string := string_of_list_ascii (repeat "a"%char 281).

Definition alice : Document :=
  mkDocument 1%N "Alice" (Some ["a0"; "a1"; "a2"; "a3"]) 3%Z.
Definition carol : Document :=
  mkDocument 2%N "Carol" (Some ["c0"; "c1"; "c2"; "c3"]) 5%Z.
Definition sample_db : Database := {[ "senate" := [alice; carol] ]}.

(** A candidate stored with two answers only. *)
Definition dave : Document := mkDocument 3%N "Dave" (Some ["d0"; "d1"]) 0%Z.
Definition short_db : Database := {[ "senate" := [alice; dave] ]}.

(** The cursor fails after its first document. *)
Definition broken_cursor_env : Env :=
  {| find_err := false; cursor_break := Some 1; insert_err := false;
     update_err := false; new_oid := 7%N; entropy := λ k, [] |}.

(** A body such as [{"name": "Bob", "answers": 7}]: the JSON decoder stores
    the name, cannot store the answers, and reports the mismatch. *)
Definition mismatch_request : Request :=
  {| URLParams := {[ "branch" := "senate" ]};
     Context := {[ "branch" := "senate" ]};
     Status := None;
     Decoded := mkCandidateRequest "Bob" None;
     DecodeErr := Some "json: cannot unmarshal number into Go struct field CandidateRequest.answers of type []string" |}.

(** A body that is not JSON: the decoder stores nothing. *)
Definition malformed_request : Request :=
  {| URLParams := {[ "branch" := "senate" ]};
     Context := {[ "branch" := "senate" ]};
     Status := None;
     Decoded := mkCandidateRequest EmptyString None;
     DecodeErr := Some "invalid character 'x' looking for beginning of value" |}.

(** Descending order of votes. *)
Definition votes_desc (a b : LeaderboardEntry) : Prop :=
  (LeaderboardEntry_Votes b ≤ LeaderboardEntry_Votes a)%Z.

(** ** Vocabulary of the statements *)

(** A stored candidate: a document that [cur.Decode] accepts. *)
Definition stored_candidate (d : Document) : Prop := is_Some (Decode_Candidate d).

(** The [Answer] view of document [d] for question [i]. *)
Definition answer_at (i : nat) (d : Document) : Answer :=
  {| Answer_Id := doc_id d; Answer_Name := doc_name d; Answer_Votes := doc_votes d;
     Answer_Answer := default EmptyString (index (doc_answers d) i) |}.

(** The (candidate id, question index) pairs of the buckets, and of the
    stored documents. *)
Definition answer_pairs (answers : list (Slice Answer)) : list (ObjectID * nat) :=
  concat (imap (λ i bucket, (λ a, (Answer_Id a, i)) <$> elems bucket) answers).

Definition source_pairs (docs : list Document) : list (ObjectID * nat) :=
  d ← docs; (λ i, (doc_id d, i)) <$> seq 0 questionCount.

(** The [Candidate] view of a document. *)
Definition candidate_of (d : Document) : Candidate :=
  {| Candidate_Id := doc_id d; Candidate_Name := doc_name d;
     Candidate_Votes := doc_votes d; Candidate_Answers := doc_answers d |}.

(** The characters of a UTF-8 string are its bytes other than the
    continuation bytes [0x80 .. 0xBF]. *)
Definition is_continuation (c : ascii) : bool :=
  let n := N_of_ascii c in ((128 <=? n) && (n <? 192))%N.

Fixpoint rune_count (s : string) : nat :=
  match s with
  | EmptyString => 0
  | String c rest => (if is_continuation c then 0 else 1) + rune_count rest
  end.

(** The [LeaderboardEntry] view of a document. *)
Definition entry_of (d : Document) : LeaderboardEntry :=
  {| LeaderboardEntry_Id := doc_id d; LeaderboardEntry_Name := doc_name d;
     LeaderboardEntry_Votes := doc_votes d |}.

(** A candidate whose votes have outgrown [int32], stored between two
    sound ones; and a store whose [Find] fails. *)
Definition eve : Document :=
  mkDocument 4%N "Eve" (Some ["e0"; "e1"; "e2"; "e3"]) 2147483648%Z.
Definition overflow_db : Database := {[ "senate" := [alice; eve; carol] ]}.

Definition find_fails_env : Env :=
  {| find_err := true; cursor_break := None; insert_err := false;
     update_err := false; new_oid := 7%N; entropy := λ k, [] |}.

Definition update_fails_env : Env :=
  {| find_err := false; cursor_break := None; insert_err := false;
     update_err := true; new_oid := 7%N; entropy := λ k, [] |}.

Definition plain_request : Request :=
  sample_request "senate" EmptyString (mkCandidateRequest EmptyString None).

(** The documents a cursor over [docs] delivers before [cur.Next] returns
    false. *)
Definition delivered (env : Env) (docs : list Document) : list Document :=
  match cursor_break env with
  | Some n => take n docs
  | None => docs
  end.

(** The handlers that read the branch from the request's context. *)
Definition branch_handlers : list Handler :=
  [GetCandidates; PostCandidates; PatchVotes; GetAnswers; GetLeaderboard].

(** The handlers that only read the store. *)
Definition listing_handlers : list Handler :=
  [GetCandidates; GetAnswers; GetLeaderboard; GetQuestions].

(** A document without the answers after the first [questionCount]. *)
Definition first_answers (d : Document) : Document :=
  {| doc_id := doc_id d; doc_name := doc_name d;
     doc_answers := take questionCount <$> doc_answers d; doc_votes := doc_votes d |}.

(** The store in which every candidate keeps its first [questionCount]
    answers only. *)
Definition first_answers_only (db : Database) : Database :=
  (λ docs : list Document, first_answers <$> docs) <$> db.

(** [x[i], x[j] = x[j], x[i]] with Go's bounds checks: [None] is the panic
    "index out of range". *)
Definition swap_checked {T} (i j : nat) (x : option (list T)) : option (list T) :=
  match x with
  | Some l =>
      match l !! i, l !! j with
      | Some xi, Some xj => Some (<[j := xi]> (<[i := xj]> l))
      | _, _ => None
      end
  | None => None
  end.

(** What the store keeps of a collection: ids are unique and votes are not
    negative. *)
Definition sound_collection (docs : list Document) : Prop :=
  NoDup (doc_id <$> docs) ∧ Forall (λ d, (0 ≤ doc_votes d)%Z) docs.

(** A document with [n] more votes. *)
Definition voted (n : Z) (d : Document) : Document :=
  {| doc_id := doc_id d; doc_name := doc_name d;
     doc_answers := doc_answers d; doc_votes := (doc_votes d + n)%Z |}.

(** One [PatchVotes] request after the other, each in its own environment. *)
Fixpoint PatchVotes_each (envs : list Env) (r : Request) (db : Database) : Database :=
  match envs with
  | [] => db
  | env :: rest => PatchVotes_each rest r (PatchVotes env r db).1
  end.

(** ** The validator *)

Lemma Bind_answers_too_long (answers : list string) :
  Exists (λ answer, AnswerMaxLength < String.length answer) answers →
  Bind_answers answers = Some ErrAnswersTooLong.
Proof.
  induction 1 as [answer rest Hlong | answer rest _ IH]; simpl.
  - apply Nat.ltb_lt in Hlong. by rewrite Hlong.
  - rewrite IH. by destruct (_ <? _).
Qed.

Lemma Bind_answers_short (answers : list string) :
  Forall (λ answer, String.length answer ≤ AnswerMaxLength) answers →
  Bind_answers answers = None.
Proof.
  induction 1 as [| answer rest Hshort _ IH]; simpl; [done |].
  apply Nat.ltb_ge in Hshort. by rewrite Hshort.
Qed.

Lemma rune_count_le (s : string) : rune_count s ≤ String.length s.
Proof.
  induction s as [| c rest IH]; simpl; [done |].
  destruct (is_continuation c); lia.
Qed.

(** An answer of more than 280 characters has more than 280 bytes. *)
Lemma Bind_answers_too_many_characters (answers : list string) :
  Exists (λ answer, AnswerMaxLength < rune_count answer) answers →
  Bind_answers answers = Some ErrAnswersTooLong.
Proof.
  intros Hlong. apply Bind_answers_too_long.
  eapply Exists_impl; [exact Hlong |]. intros answer Hanswer. simpl in *.
  pose proof (rune_count_le answer). lia.
Qed.

Lemma Bind_missing_name (answers : Slice string) :
  Bind (mkCandidateRequest EmptyString answers) = Some ErrMissingName.
Proof. reflexivity. Qed.

Lemma Bind_name_given (request : CandidateRequest) :
  CandidateRequest_Name request ≠ EmptyString →
  Bind request =
    match CandidateRequest_Answers request with
    | None => Some ErrMissingAnswers
    | Some answers => Bind_answers answers
    end.
Proof.
  intros Hname. unfold Bind.
  apply String.eqb_neq in Hname. by rewrite Hname.
Qed.

(** The empty list of answers is not the absent one: it passes. *)
Lemma Bind_empty_answers (name : string) :
  name ≠ EmptyString → Bind (mkCandidateRequest name (Some [])) = None.
Proof. intros Hname. by rewrite Bind_name_given. Qed.

Lemma Bind_None_inv (request : CandidateRequest) :
  Bind request = None →
  CandidateRequest_Name request ≠ EmptyString ∧
  ∃ answers, CandidateRequest_Answers request = Some answers ∧
             Forall (λ answer, String.length answer ≤ AnswerMaxLength) answers.
Proof.
  unfold Bind. destruct (String.eqb_spec (CandidateRequest_Name request) EmptyString)
    as [| Hname]; [done |].
  destruct (CandidateRequest_Answers request) as [answers |]; [| done].
  intros Hok. split; [done |]. exists answers. split; [done |].
  induction answers as [| answer rest IH]; [constructor |].
  simpl in Hok. destruct (Nat.ltb_spec AnswerMaxLength (String.length answer)); [done |].
  constructor; [lia | by apply IH].
Qed.

(** What [PostCandidates] does once [data.Bind] has refused the request. *)
Lemma PostCandidates_refused (env : Env) (r : Request) (db : Database) (e : error) :
  DecodeErr r = None → Bind (Decoded r) = Some e →
  PostCandidates env r db =
    (db, Rendered (default http_StatusOK (Status r))
           (RenderResponse (NewResponseFail (DataStrings
              {[ (match e with ErrMissingName => "name" | _ => "answers" end)
                 := error_Error e ]})))).
Proof.
  intros Hdec Hbind. unfold PostCandidates, render_Bind. rewrite Hdec, Hbind.
  assert (He : e = ErrMissingName ∨ e = ErrMissingAnswers ∨ e = ErrAnswersTooLong).
  { revert Hbind. unfold Bind. destruct (String.eqb _ _); [naive_solver |].
    destruct (CandidateRequest_Answers _) as [answers |]; [| naive_solver].
    induction answers as [| answer rest IH]; simpl; [done |].
    destruct (_ <? _); naive_solver. }
  by destruct He as [-> | [-> | ->]].
Qed.

(** C2. Validation of a decoded submission is fail-fast in this order:
    an empty name gives MissingName under the key "name", whatever the
    answers; otherwise absent (nil) answers give MissingAnswers under
    "answers", while an empty list passes; otherwise an answer longer than
    280 bytes gives AnswersTooLong under "answers".  In each case
    [PostCandidates] renders a "fail" envelope and the store is unchanged. *)
Theorem C2_validation_order (env : Env) (r : Request) (db : Database) :
  DecodeErr r = None →
  let name := CandidateRequest_Name (Decoded r) in
  let answers := CandidateRequest_Answers (Decoded r) in
  let fail key message :=
    (db, Rendered (default http_StatusOK (Status r))
           (RenderResponse {| Response_Status := Fail;
                              Response_Data := DataStrings {[ key := message ]} |})) in
  (name = EmptyString →
     Bind (Decoded r) = Some ErrMissingName ∧
     PostCandidates env r db = fail "name" "missing name") ∧
  (name ≠ EmptyString → answers = None →
     Bind (Decoded r) = Some ErrMissingAnswers ∧
     PostCandidates env r db = fail "answers" "missing answers") ∧
  (name ≠ EmptyString → answers = Some [] → Bind (Decoded r) = None) ∧
  (name ≠ EmptyString →
   ∀ l, answers = Some l →
     Exists (λ answer, AnswerMaxLength < String.length answer) l →
     Bind (Decoded r) = Some ErrAnswersTooLong ∧
     PostCandidates env r db = fail "answers" "one or more answers are too long").
Proof.
  intros Hdec. cbv zeta.
  split; [intros Hname | split; [intros Hname Hnil | split; [intros Hname Hempty |
    intros Hname l Hl Hlong]]].
  - assert (Hb : Bind (Decoded r) = Some ErrMissingName).
    { unfold Bind. by rewrite Hname. }
    split; [done |]. by rewrite (PostCandidates_refused env r db _ Hdec Hb).
  - assert (Hb : Bind (Decoded r) = Some ErrMissingAnswers).
    { rewrite Bind_name_given by done. by rewrite Hnil. }
    split; [done |]. by rewrite (PostCandidates_refused env r db _ Hdec Hb).
  - rewrite Bind_name_given by done. by rewrite Hempty.
  - assert (Hb : Bind (Decoded r) = Some ErrAnswersTooLong).
    { rewrite Bind_name_given by done. rewrite Hl. by apply Bind_answers_too_long. }
    split; [done |]. by rewrite (PostCandidates_refused env r db _ Hdec Hb).
Qed.

Lemma C2_validation_order_witness :
  PostCandidates sample_env
    (sample_request "senate" EmptyString (mkCandidateRequest EmptyString None)) sample_db
  = (sample_db, Rendered 200 (RenderResponse (NewResponseFail
       (DataStrings {[ "name" := "missing name" ]}))))
  ∧ PostCandidates sample_env
      (sample_request "senate" EmptyString (mkCandidateRequest "Bob" None)) sample_db
    = (sample_db, Rendered 200 (RenderResponse (NewResponseFail
         (DataStrings {[ "answers" := "missing answers" ]}))))
  ∧ Bind (mkCandidateRequest "Bob" (Some [])) = None
  ∧ PostCandidates sample_env
      (sample_request "senate" EmptyString
         (mkCandidateRequest "Bob" (Some ["a"; long_answer; "c"; "d"]))) sample_db
    = (sample_db, Rendered 200 (RenderResponse (NewResponseFail
         (DataStrings {[ "answers" := "one or more answers are too long" ]})))).
Proof.
  split; [| split; [| split]].
  - apply (C2_validation_order sample_env
             (sample_request "senate" EmptyString (mkCandidateRequest EmptyString None))
             sample_db eq_refl).
    reflexivity.
  - apply (C2_validation_order sample_env
             (sample_request "senate" EmptyString (mkCandidateRequest "Bob" None))
             sample_db eq_refl); [discriminate | reflexivity].
  - apply (C2_validation_order sample_env
             (sample_request "senate" EmptyString (mkCandidateRequest "Bob" (Some [])))
             sample_db eq_refl); [discriminate | reflexivity].
  - apply (C2_validation_order sample_env
             (sample_request "senate" EmptyString
                (mkCandidateRequest "Bob" (Some ["a"; long_answer; "c"; "d"])))
             sample_db eq_refl) with (l := ["a"; long_answer; "c"; "d"]);
      [discriminate | reflexivity |].
    apply Exists_cons_tl, Exists_cons_hd. vm_compute. lia.
Defined.

(** ** The branch resolver *)

Lemma invalid_branch_message_names (branch : string) :
  invalid_branch_message branch =
    ("Invalid branch " +:+ dquote) +:+ branch +:+
    (dquote +:+ "; must be either " +:+ dquote +:+ "senate" +:+ dquote +:+ " or "
       +:+ dquote +:+ "treasury" +:+ dquote).
Proof.
  unfold invalid_branch_message.
  generalize (dquote +:+ "; must be either " +:+ dquote +:+ "senate" +:+ dquote
                +:+ " or " +:+ dquote +:+ "treasury" +:+ dquote).
  intros post. simpl. reflexivity.
Qed.

(** On a branch that is not allowed the downstream handler plays no part. *)
Lemma BranchCtx_skips_next (next next' : Handler) (env : Env) (r : Request) (db : Database) :
  chi_URLParam r "branch" ≠ "senate" → chi_URLParam r "branch" ≠ "treasury" →
  BranchCtx next env r db = BranchCtx next' env r db.
Proof.
  intros Hs Ht. unfold BranchCtx.
  apply String.eqb_neq in Hs, Ht. by rewrite Hs, Ht.
Qed.

(** C3. A branch parameter other than "senate" and "treasury" makes the
    resolver render a "fail" envelope whose message quotes the value; the
    result is the same whatever the downstream handler is, and the store is
    as before: the handler was not run.  For the two allowed values the
    resolver stores the branch under "branch" in the request-scoped context
    and runs the downstream handler on that request. *)
Theorem C3_BranchCtx (next : Handler) (env : Env) (r : Request) (db : Database) :
  let branch := chi_URLParam r "branch" in
  (branch ≠ "senate" → branch ≠ "treasury" →
     BranchCtx next env r db =
       (db, Rendered (default http_StatusOK (Status r))
              (RenderResponse {| Response_Status := Fail;
                 Response_Data := DataStrings
                   {[ "message" := invalid_branch_message branch ]} |})) ∧
     ∃ pre post, ∀ b, invalid_branch_message b = pre +:+ b +:+ post) ∧
  (branch = "senate" ∨ branch = "treasury" →
     BranchCtx next env r db = next env (WithValue r "branch" branch) db ∧
     Context_Value (WithValue r "branch" branch) "branch" = Some branch).
Proof.
  cbv zeta. split.
  - intros Hs Ht. split.
    + unfold BranchCtx.
      apply String.eqb_neq in Hs, Ht. by rewrite Hs, Ht.
    + eexists _, _. intros b. apply invalid_branch_message_names.
  - intros Hallowed. split.
    + unfold BranchCtx. by destruct Hallowed as [-> | ->].
    + unfold Context_Value, WithValue; simpl. apply lookup_insert_eq.
Qed.

Lemma C3_BranchCtx_witness :
  BranchCtx GetLeaderboard sample_env
    (sample_request "judiciary" EmptyString (mkCandidateRequest EmptyString None)) sample_db
  = (sample_db, Rendered 200 (RenderResponse (NewResponseFail (DataStrings
       {[ "message" := invalid_branch_message "judiciary" ]}))))
  ∧ BranchCtx GetLeaderboard sample_env
      (sample_request "senate" EmptyString (mkCandidateRequest EmptyString None)) sample_db
    = GetLeaderboard sample_env
        (WithValue (sample_request "senate" EmptyString (mkCandidateRequest EmptyString None))
           "branch" "senate") sample_db.
Proof.
  split.
  - apply (C3_BranchCtx GetLeaderboard sample_env
             (sample_request "judiciary" EmptyString (mkCandidateRequest EmptyString None))
             sample_db); vm_compute; discriminate.
  - apply (C3_BranchCtx GetLeaderboard sample_env
             (sample_request "senate" EmptyString (mkCandidateRequest EmptyString None))
             sample_db).
    left. reflexivity.
Defined.

(** ** Increment vote *)

Lemma fromHexChar_bound (c : ascii) (d : N) : fromHexChar c = Some d → (d < 16)%N.
Proof.
  unfold fromHexChar. generalize (N_of_ascii c). intros n. cbv zeta.
  destruct ((48 <=? n) && (n <=? 57))%N eqn:Hdigit.
  { intros [= <-]. apply andb_true_iff in Hdigit as [?%N.leb_le ?%N.leb_le]. lia. }
  destruct ((97 <=? n) && (n <=? 102))%N eqn:Hlower.
  { intros [= <-]. apply andb_true_iff in Hlower as [?%N.leb_le ?%N.leb_le]. lia. }
  destruct ((65 <=? n) && (n <=? 70))%N eqn:Hupper; [| done].
  intros [= <-]. apply andb_true_iff in Hupper as [?%N.leb_le ?%N.leb_le]. lia.
Qed.

Lemma hex_value_bound (s : string) (acc v : N) :
  hex_value s acc = Some v → (v < (acc + 1) * 16 ^ N.of_nat (String.length s))%N.
Proof.
  revert acc. induction s as [| c rest IH]; intros acc; simpl String.length.
  - intros [= ->]. simpl. lia.
  - cbn [hex_value]. destruct (fromHexChar c) as [d |] eqn:Hd; [| done].
    intros Hv. apply IH in Hv. apply fromHexChar_bound in Hd.
    rewrite Nat2N.inj_succ, N.pow_succ_r'. nia.
Qed.

(** An id that parses fills the 12 bytes of an [ObjectID]. *)
Lemma ObjectIDFromHex_bound (s : string) (id : ObjectID) :
  ObjectIDFromHex s = Some id → (id < 2 ^ 96)%N.
Proof.
  unfold ObjectIDFromHex. destruct (Nat.eqb_spec (String.length s) 24) as [Hlen |]; [| done].
  intros Hv. apply hex_value_bound in Hv. rewrite Hlen in Hv.
  change (16 ^ N.of_nat 24)%N with (2 ^ 96)%N in Hv. lia.
Qed.

(** C5. When the id parameter is not an ObjectID in hexadecimal,
    [PatchVotes] renders the "error" envelope with the message
    "Could not get ObjectID", which is not a "fail" envelope, and leaves the
    store as it was. *)
Theorem C5_PatchVotes_malformed_id (env : Env) (r : Request) (db : Database) :
  ObjectIDFromHex (chi_URLParam r "id") = None →
  PatchVotes env r db =
    (db, Rendered (default http_StatusOK (Status r))
           (RenderErrorResponse {| ErrorResponse_Status := Error;
                                   ErrorResponse_Message := "Could not get ObjectID" |})) ∧
  Renderer_Status (RenderErrorResponse (NewErrorResponse "Could not get ObjectID")) ≠ Fail.
Proof.
  intros Hid. unfold PatchVotes. by rewrite Hid.
Qed.

Lemma C5_PatchVotes_malformed_id_witness :
  PatchVotes sample_env
    (sample_request "senate" "not-an-id" (mkCandidateRequest EmptyString None)) sample_db
  = (sample_db, Rendered 200 (RenderErrorResponse (NewErrorResponse "Could not get ObjectID")))
  ∧ Renderer_Status (RenderErrorResponse (NewErrorResponse "Could not get ObjectID")) ≠ Fail.
Proof.
  apply (C5_PatchVotes_malformed_id sample_env
           (sample_request "senate" "not-an-id" (mkCandidateRequest EmptyString None))
           sample_db).
  reflexivity.
Defined.

Lemma update_first_absent (id : ObjectID) (u : Update) (docs : list Document) :
  id ∉ (doc_id <$> docs) → update_first id u docs = docs.
Proof.
  induction docs as [| d rest IH]; simpl; [done |].
  rewrite not_elem_of_cons. intros [Hd Hrest].
  destruct (N.eqb_spec (doc_id d) id); [congruence |]. by rewrite IH.
Qed.

Lemma update_first_at (id : ObjectID) (u : Update) (pre post : list Document) (d : Document) :
  doc_id d = id → id ∉ (doc_id <$> pre) →
  update_first id u (pre ++ d :: post) = pre ++ apply_update u d :: post.
Proof.
  intros Hd. induction pre as [| p pre IH]; simpl.
  - intros _. by rewrite Hd, N.eqb_refl.
  - rewrite not_elem_of_cons. intros [Hp Hpre].
    destruct (N.eqb_spec (doc_id p) id); [congruence |]. by rewrite IH.
Qed.

Lemma first_with_id (id : ObjectID) (docs : list Document) :
  id ∈ (doc_id <$> docs) →
  ∃ pre d post, docs = pre ++ d :: post ∧ doc_id d = id ∧ id ∉ (doc_id <$> pre).
Proof.
  induction docs as [| d rest IH]; simpl; [by rewrite elem_of_nil |].
  intros Hin. destruct (decide (doc_id d = id)) as [Heq | Hne].
  - exists [], d, rest. repeat split; [done .. |]. apply not_elem_of_nil.
  - apply elem_of_cons in Hin as [? | Hin]; [congruence |].
    destruct (IH Hin) as (pre & d' & post & -> & Hd' & Hpre).
    exists (d :: pre), d', post. repeat split; [done |].
    rewrite fmap_cons, not_elem_of_cons. split; [congruence | done].
Qed.

Lemma collection_alter (f : list Document → list Document) (coll : string) (db : Database) :
  f [] = [] → collection (alter f coll db) coll = f (collection db coll).
Proof.
  intros Hf. unfold collection. rewrite lookup_alter_eq.
  by destruct (db !! coll).
Qed.

Lemma alter_fixed (f : list Document → list Document) (coll : string) (db : Database) :
  f (collection db coll) = collection db coll → alter f coll db = db.
Proof.
  intros Hf. apply map_eq. intros k. destruct (decide (coll = k)) as [<- | Hne].
  - rewrite lookup_alter_eq. unfold collection in Hf.
    destruct (db !! coll); simpl in *; [by rewrite Hf | done].
  - by rewrite lookup_alter_ne.
Qed.

Lemma collection_insert (coll : string) (docs : list Document) (db : Database) :
  collection (<[coll := docs]> db) coll = docs.
Proof. unfold collection. by rewrite lookup_insert_eq. Qed.

(** C4. For a well-formed id, and unless the store reports a failure,
    [PatchVotes] renders a "success" envelope with a nil payload after the
    single [$inc] update of the store.  When a document of the branch's
    collection has that id, its votes grow by exactly 1 while its other
    fields, the other documents and the other collections stay as they are;
    when none has it, the store is unchanged. *)
Theorem C4_PatchVotes_increment (env : Env) (r : Request) (db : Database)
    (id : ObjectID) (branch : string) :
  ObjectIDFromHex (chi_URLParam r "id") = Some id →
  Context_Value r "branch" = Some branch →
  update_err env = false →
  ∃ db',
    PatchVotes env r db =
      (db', Rendered (default http_StatusOK (Status r))
              (RenderResponse {| Response_Status := Success; Response_Data := DataNil |})) ∧
    db' = (UpdateOne env db branch id (IncVotes 1)).1 ∧
    (∀ other, other ≠ branch → db' !! other = db !! other) ∧
    (id ∈ (doc_id <$> collection db branch) →
       ∃ pre d post,
         collection db branch = pre ++ d :: post ∧
         doc_id d = id ∧ (id ∉ (doc_id <$> pre)) ∧
         collection db' branch =
           pre ++ mkDocument (doc_id d) (doc_name d) (doc_answers d) (doc_votes d + 1) :: post) ∧
    (id ∉ (doc_id <$> collection db branch) → db' = db).
Proof.
  intros Hid Hbranch Hok.
  exists (alter (update_first id (IncVotes 1)) branch db).
  unfold PatchVotes, UpdateOne. rewrite Hid, Hbranch, Hok. simpl.
  repeat split.
  - intros other Hother. by rewrite lookup_alter_ne.
  - intros Hin. destruct (first_with_id _ _ Hin) as (pre & d & post & Hdocs & Hd & Hpre).
    exists pre, d, post. repeat split; [done .. |].
    rewrite collection_alter by done. rewrite Hdocs. by apply update_first_at.
  - intros Hnotin. apply alter_fixed. by apply update_first_absent.
Qed.

Lemma C4_PatchVotes_increment_witness :
  ∃ db',
    PatchVotes sample_env
      (sample_request "senate" "000000000000000000000002" (mkCandidateRequest EmptyString None))
      sample_db
    = (db', Rendered 200 (RenderResponse (NewResponseSuccess DataNil))) ∧
    collection db' "senate" =
      [alice; mkDocument 2%N "Carol" (Some ["c0"; "c1"; "c2"; "c3"]) 6%Z].
Proof.
  destruct (C4_PatchVotes_increment sample_env
              (sample_request "senate" "000000000000000000000002"
                 (mkCandidateRequest EmptyString None))
              sample_db 2%N "senate" eq_refl eq_refl eq_refl)
    as (db' & Hrun & Hdb' & _).
  exists db'. split; [exact Hrun |]. rewrite Hdb'. reflexivity.
Defined.

(** ** Create candidate *)

Lemma InsertOne_ok (env : Env) (db : Database) (coll name : string)
    (answers : Slice string) (votes : Z) :
  insert_err env = false → new_oid env ∉ (doc_id <$> collection db coll) →
  InsertOne env db coll name answers votes =
    (<[coll := collection db coll ++ [mkDocument (new_oid env) name answers votes]]> db, None).
Proof.
  intros Herr Hfresh. unfold InsertOne. rewrite Herr. simpl.
  by rewrite bool_decide_eq_false_2.
Qed.

Lemma InsertOne_failed (env : Env) (db : Database) (coll name : string)
    (answers : Slice string) (votes : Z) :
  insert_err env = true ∨ new_oid env ∈ (doc_id <$> collection db coll) →
  InsertOne env db coll name answers votes = (db, Some (ErrExternal "insert")).
Proof.
  intros Hfail. unfold InsertOne. destruct Hfail as [-> | Hdup]; [done |].
  rewrite bool_decide_eq_true_2 by done. by rewrite orb_true_r.
Qed.

(** [PostCandidates] once the request got past the two checks on [err]. *)
Lemma PostCandidates_past_checks (env : Env) (r : Request) (db : Database) (branch : string) :
  errors_Is (render_Bind r).2 ErrMissingName = false →
  errors_Is (render_Bind r).2 ErrMissingAnswers = false →
  errors_Is (render_Bind r).2 ErrAnswersTooLong = false →
  Context_Value r "branch" = Some branch →
  PostCandidates env r db =
    match InsertOne env db branch (CandidateRequest_Name (Decoded r))
            (CandidateRequest_Answers (Decoded r)) 0 with
    | (db', Some _) =>
        (db', Rendered (default http_StatusOK (Status r))
                (RenderErrorResponse (NewErrorResponse
                   "There was an error adding the candidate to the database.")))
    | (db', None) =>
        (db', Rendered http_StatusCreated (RenderResponse (NewResponseSuccess DataNil)))
    end.
Proof.
  intros Hname Hanswers Hlong Hbranch. unfold PostCandidates.
  destruct (render_Bind r) as [data err] eqn:Hbind. simpl in *.
  rewrite Hname, Hanswers, Hlong, Hbranch. simpl.
  assert (data = Decoded r) as ->.
  { unfold render_Bind in Hbind. destruct (DecodeErr r); by inversion Hbind. }
  by destruct (InsertOne _ _ _ _ _ _) as [db' [e |]].
Qed.

(** C7. A submission that passes validation is inserted as one new document
    of the branch's collection, with the submitted name and answers and with
    votes 0; nothing else in the store changes, and the response is the
    "success" envelope with a nil payload and status 201.  When the insert
    fails in the store, the response is an "error" envelope, the status is
    not set (it stays 200) and the store is unchanged. *)
Theorem C7_PostCandidates_insert (env : Env) (r : Request) (db : Database) (branch : string) :
  DecodeErr r = None →
  Bind (Decoded r) = None →
  Context_Value r "branch" = Some branch →
  let name := CandidateRequest_Name (Decoded r) in
  let answers := CandidateRequest_Answers (Decoded r) in
  (insert_err env = false → new_oid env ∉ (doc_id <$> collection db branch) →
     ∃ db',
       PostCandidates env r db =
         (db', Rendered http_StatusCreated
                 (RenderResponse {| Response_Status := Success; Response_Data := DataNil |})) ∧
       collection db' branch =
         collection db branch ++ [mkDocument (new_oid env) name answers 0] ∧
       ∀ other, other ≠ branch → db' !! other = db !! other) ∧
  (insert_err env = true ∨ new_oid env ∈ (doc_id <$> collection db branch) →
     PostCandidates env r db =
       (db, Rendered (default http_StatusOK (Status r))
              (RenderErrorResponse {| ErrorResponse_Status := Error;
                 ErrorResponse_Message :=
                   "There was an error adding the candidate to the database." |}))).
Proof.
  intros Hdec Hbind Hbranch. cbv zeta.
  assert (Hrun := PostCandidates_past_checks env r db branch).
  unfold render_Bind in Hrun. rewrite Hdec, Hbind in Hrun.
  specialize (Hrun eq_refl eq_refl eq_refl Hbranch).
  split.
  - intros Herr Hfresh. rewrite InsertOne_ok in Hrun by done.
    eexists. split; [exact Hrun |]. split.
    + apply collection_insert.
    + intros other Hother. by rewrite lookup_insert_ne.
  - intros Hfail. by rewrite InsertOne_failed in Hrun.
Qed.

Lemma C7_PostCandidates_insert_witness :
  ∃ db',
    PostCandidates sample_env
      (sample_request "senate" EmptyString (mkCandidateRequest "Bob" (Some ["a"; "b"; "c"; "d"])))
      sample_db
    = (db', Rendered 201 (RenderResponse (NewResponseSuccess DataNil))) ∧
    collection db' "senate" =
      [alice; carol; mkDocument 7%N "Bob" (Some ["a"; "b"; "c"; "d"]) 0%Z].
Proof.
  destruct (C7_PostCandidates_insert sample_env
              (sample_request "senate" EmptyString
                 (mkCandidateRequest "Bob" (Some ["a"; "b"; "c"; "d"])))
              sample_db "senate" eq_refl eq_refl eq_refl) as [Hok _].
  destruct Hok as (db' & Hrun & Hcoll & _); [reflexivity | apply (bool_decide_unpack _); vm_compute; exact I |].
  exists db'. split; [exact Hrun | exact Hcoll].
Defined.

(** ** randomize *)

Lemma swap_elems_Permutation {T} (i j : nat) (x : list T) : swap_elems i j x ≡ₚ x.
Proof.
  unfold swap_elems.
  destruct (x !! i) as [xi |] eqn:Hi; [| done].
  destruct (x !! j) as [xj |] eqn:Hj; [| done].
  destruct (decide (i = j)) as [-> | Hne].
  { rewrite list_insert_insert_eq. by rewrite list_insert_id. }
  assert (Hi_lt : i < length x) by (by eapply lookup_lt_Some).
  assert (Hj_lt : j < length x) by (by eapply lookup_lt_Some).
  apply Permutation_inj. split; [by rewrite !length_insert |].
  exists (λ k, if decide (k = i) then j else if decide (k = j) then i else k).
  split.
  - intros a b. repeat case_decide; congruence.
  - intros k. repeat case_decide; subst.
    + rewrite list_lookup_insert_ne by done.
      rewrite list_lookup_insert_eq by done. done.
    + rewrite list_lookup_insert_eq by (by rewrite length_insert). done.
    + by rewrite !list_lookup_insert_ne by done.
Qed.

(** [Shuffle n] calls [swap i j] only with [j <= i < n]. *)
Lemma Shuffle_invariant {X} (P : X → Prop) (n : nat) (swap : nat → nat → X → X)
    (rnd : list nat) (x : X) :
  (∀ i j y, j ≤ i → i < n → P y → P (swap i j y)) →
  P x → P (Shuffle n swap rnd x).
Proof.
  intros Hswap. unfold Shuffle.
  assert (Hle : n - 1 < n ∨ n - 1 = 0) by lia.
  revert rnd x Hle. generalize (n - 1) as i.
  induction i as [| i IH]; intros rnd x Hle Hx; simpl; [done |].
  apply IH; [lia |]. apply Hswap; [| lia | done].
  pose proof (Nat.mod_upper_bound (hd 0 rnd) (S i + 1)). lia.
Qed.

Lemma randomize_Permutation {T} (rnd : list nat) (x : Slice T) :
  elems (randomize rnd x) ≡ₚ elems x.
Proof.
  destruct x as [l |]; simpl; [| done].
  apply (Shuffle_invariant (λ y, y ≡ₚ l)); [| done].
  intros i j y _ _ Hy. by rewrite swap_elems_Permutation.
Qed.

Lemma randomize_nil {T} (rnd : list nat) : randomize rnd (None : Slice T) = None.
Proof. reflexivity. Qed.

(** ** List answers *)

Lemma for_each_cons {S X} (x : X) (rest : list X) (body : X → S → Flow S) (s : S) :
  for_each (x :: rest) body s = s' ← body x s; for_each rest body s'.
Proof. reflexivity. Qed.

Lemma elems_append {T} (x : Slice T) (v : T) : elems (append x v) = elems x ++ [v].
Proof. reflexivity. Qed.

(** The inner loop on a candidate with at least [questionCount] answers. *)
Lemma GetAnswers_questions_ok (d : Document) (b0 b1 b2 b3 : Slice Answer) :
  questionCount ≤ len (doc_answers d) →
  for_each (seq 0 questionCount)
    (GetAnswers_question (mkCandidate (doc_id d) (doc_name d) (doc_votes d) (doc_answers d)))
    [b0; b1; b2; b3]
  = Continue [append b0 (answer_at 0 d); append b1 (answer_at 1 d);
              append b2 (answer_at 2 d); append b3 (answer_at 3 d)].
Proof.
  unfold len, questionCount, answer_at. destruct d as [id name [answers |] votes]; simpl.
  - destruct answers as [| a0 [| a1 [| a2 [| a3 rest]]]]; simpl; intros; (lia || done).
  - lia.
Qed.

(** The inner loop on a candidate with fewer answers panics at the first
    index that is out of range. *)
Lemma GetAnswers_questions_short (d : Document) (acc : list (Slice Answer)) :
  len (doc_answers d) < questionCount →
  for_each (seq 0 questionCount)
    (GetAnswers_question (mkCandidate (doc_id d) (doc_name d) (doc_votes d) (doc_answers d)))
    acc
  = Halt (Panicked (PanicIndexOutOfRange (len (doc_answers d)) (len (doc_answers d)))).
Proof.
  unfold len, questionCount. destruct d as [id name [answers |] votes]; simpl.
  - destruct answers as [| a0 [| a1 [| a2 [| a3 rest]]]]; simpl; intros; (lia || done).
  - done.
Qed.

Lemma Decode_Candidate_stored (d : Document) :
  stored_candidate d →
  Decode_Candidate d = Some (mkCandidate (doc_id d) (doc_name d) (doc_votes d) (doc_answers d)).
Proof.
  unfold stored_candidate, Decode_Candidate. destruct (fits_int32 _); [done |].
  by intros [? ?].
Qed.

Lemma GetAnswers_doc_stored (r : Request) (d : Document) (answers : list (Slice Answer)) :
  stored_candidate d →
  GetAnswers_doc r d answers =
    for_each (seq 0 questionCount)
      (GetAnswers_question (mkCandidate (doc_id d) (doc_name d) (doc_votes d) (doc_answers d)))
      answers.
Proof. intros Hstored. unfold GetAnswers_doc. by rewrite Decode_Candidate_stored. Qed.

Lemma GetAnswers_loop_ok (r : Request) (docs : list Document) (b0 b1 b2 b3 : Slice Answer) :
  Forall (λ d, stored_candidate d ∧ questionCount ≤ len (doc_answers d)) docs →
  ∃ c0 c1 c2 c3,
    for_each docs (GetAnswers_doc r) [b0; b1; b2; b3] = Continue [c0; c1; c2; c3] ∧
    elems c0 = elems b0 ++ (answer_at 0 <$> docs) ∧
    elems c1 = elems b1 ++ (answer_at 1 <$> docs) ∧
    elems c2 = elems b2 ++ (answer_at 2 <$> docs) ∧
    elems c3 = elems b3 ++ (answer_at 3 <$> docs).
Proof.
  intros Hdocs. revert b0 b1 b2 b3.
  induction Hdocs as [| d docs [Hstored Hlen] _ IH]; intros b0 b1 b2 b3.
  - exists b0, b1, b2, b3. simpl. by rewrite !app_nil_r.
  - rewrite for_each_cons, (GetAnswers_doc_stored r d _ Hstored).
    rewrite (GetAnswers_questions_ok d b0 b1 b2 b3 Hlen). simpl.
    destruct (IH (append b0 (answer_at 0 d)) (append b1 (answer_at 1 d))
                 (append b2 (answer_at 2 d)) (append b3 (answer_at 3 d)))
      as (c0 & c1 & c2 & c3 & -> & H0 & H1 & H2 & H3).
    exists c0, c1, c2, c3. rewrite H0, H1, H2, H3, !elems_append, <- !app_assoc.
    done.
Qed.

(** After a prefix of sound documents, a stored candidate with fewer than
    [questionCount] answers ends the handler with a panic. *)
Lemma GetAnswers_loop_short (r : Request) (pre post : list Document) (d : Document)
    (b0 b1 b2 b3 : Slice Answer) :
  Forall (λ d, stored_candidate d ∧ questionCount ≤ len (doc_answers d)) pre →
  stored_candidate d → len (doc_answers d) < questionCount →
  for_each (pre ++ d :: post) (GetAnswers_doc r) [b0; b1; b2; b3]
  = Halt (Panicked (PanicIndexOutOfRange (len (doc_answers d)) (len (doc_answers d)))).
Proof.
  intros Hpre Hstored Hshort. revert b0 b1 b2 b3.
  induction Hpre as [| p pre [Hp Hlen] _ IH]; intros b0 b1 b2 b3.
  - rewrite app_nil_l, for_each_cons, (GetAnswers_doc_stored r d _ Hstored).
    by rewrite GetAnswers_questions_short.
  - rewrite <- app_comm_cons, for_each_cons, (GetAnswers_doc_stored r p _ Hp).
    rewrite (GetAnswers_questions_ok p b0 b1 b2 b3 Hlen). simpl. apply IH.
Qed.

(** Whatever else goes wrong, documents with [questionCount] answers or
    more never make the loop panic. *)
Lemma GetAnswers_loop_in_bounds (r : Request) (docs : list Document) (b0 b1 b2 b3 : Slice Answer) :
  Forall (λ d, questionCount ≤ len (doc_answers d)) docs →
  match for_each docs (GetAnswers_doc r) [b0; b1; b2; b3] with
  | Continue answers => length answers = questionCount
  | Halt (Rendered _ _) => True
  | Halt (Panicked _) => False
  end.
Proof.
  intros Hdocs. revert b0 b1 b2 b3.
  induction Hdocs as [| d docs Hlen _ IH]; intros b0 b1 b2 b3; [done |].
  rewrite for_each_cons.
  destruct (Decode_Candidate d) as [candidate |] eqn:Hdecode.
  - rewrite GetAnswers_doc_stored by (by eexists).
    rewrite (GetAnswers_questions_ok d b0 b1 b2 b3 Hlen). simpl. apply IH.
  - unfold GetAnswers_doc. by rewrite Hdecode.
Qed.

Lemma Find_all (env : Env) (db : Database) (coll : string) :
  find_err env = false → cursor_break env = None →
  Find env db coll None = inr (collection db coll).
Proof. intros Hfind Hcursor. unfold Find. by rewrite Hfind, Hcursor. Qed.

Lemma source_pairs_by_question (docs : list Document) :
  ((λ d, (doc_id d, 0)) <$> docs) ++ ((λ d, (doc_id d, 1)) <$> docs) ++
  ((λ d, (doc_id d, 2)) <$> docs) ++ ((λ d, (doc_id d, 3)) <$> docs)
  ≡ₚ source_pairs docs.
Proof.
  unfold source_pairs. induction docs as [| d docs IH]; [done |].
  rewrite bind_cons, <- IH, !fmap_cons. simpl. solve_Permutation.
Qed.

(** C6. When the store answers and every document of the branch's
    collection is a stored candidate with at least 4 answers, [GetAnswers]
    renders a "success" envelope holding exactly 4 buckets under "answers";
    bucket [i] is a rearrangement of the list that has, for each candidate,
    one entry with its id, name, votes and its answer at index [i]; and the
    (candidate id, question index) pairs of all buckets are, as a multiset,
    those of the stored data, whatever the shuffles draw. *)
Theorem C6_GetAnswers_groups (env : Env) (r : Request) (db : Database) (branch : string) :
  Context_Value r "branch" = Some branch →
  find_err env = false → cursor_break env = None →
  Forall (λ d, stored_candidate d ∧ questionCount ≤ len (doc_answers d))
    (collection db branch) →
  ∃ answers,
    GetAnswers env r db =
      (db, Rendered (default http_StatusOK (Status r))
             (RenderResponse {| Response_Status := Success;
                Response_Data := DataAny {[ "answers" := AnyAnswers answers ]} |})) ∧
    length answers = 4 ∧
    (∀ i, i < 4 →
       ∃ bucket, answers !! i = Some bucket ∧
                 elems bucket ≡ₚ answer_at i <$> collection db branch ∧
                 Forall (λ d, index (doc_answers d) i = Some (Answer_Answer (answer_at i d)))
                   (collection db branch)) ∧
    answer_pairs answers ≡ₚ source_pairs (collection db branch).
Proof.
  intros Hbranch Hfind Hcursor Hdocs.
  unfold GetAnswers. rewrite Hbranch, Find_all by done.
  destruct (GetAnswers_loop_ok r _ None None None None Hdocs)
    as (c0 & c1 & c2 & c3 & Hloop & H0 & H1 & H2 & H3).
  simpl in H0, H1, H2, H3.
  change (for_each (collection db branch) (GetAnswers_doc r) answers_zero
          = Continue [c0; c1; c2; c3]) in Hloop.
  rewrite Hloop. simpl. eexists. split; [reflexivity |]. split; [done |].
  assert (Htext : ∀ i, i < 4 →
    Forall (λ d, index (doc_answers d) i = Some (Answer_Answer (answer_at i d)))
      (collection db branch)).
  { intros i Hi. eapply Forall_impl; [exact Hdocs |]. intros d [_ Hlen]. simpl.
    unfold len, questionCount in Hlen. unfold index.
    destruct (elems (doc_answers d) !! i) eqn:Hlookup; [done |].
    apply lookup_ge_None in Hlookup. lia. }
  split.
  - intros i Hi. destruct i as [| [| [| [| i]]]]; [| | | | lia]; simpl;
      eexists; (split; [reflexivity |]); (split; [| by apply Htext]);
      rewrite randomize_Permutation; first [by rewrite H0 | by rewrite H1 | by rewrite H2 | by rewrite H3].
  - rewrite <- source_pairs_by_question. unfold answer_pairs. simpl.
    rewrite app_nil_r, !randomize_Permutation, H0, H1, H2, H3.
    by rewrite <- !list_fmap_compose.
Qed.

Lemma C6_GetAnswers_groups_witness :
  ∃ answers,
    GetAnswers sample_env
      (sample_request "senate" EmptyString (mkCandidateRequest EmptyString None)) sample_db
    = (sample_db, Rendered 200 (RenderResponse (NewResponseSuccess
         (DataAny {[ "answers" := AnyAnswers answers ]})))) ∧
    length answers = 4 ∧
    answer_pairs answers ≡ₚ source_pairs [alice; carol].
Proof.
  destruct (C6_GetAnswers_groups sample_env
              (sample_request "senate" EmptyString (mkCandidateRequest EmptyString None))
              sample_db "senate" eq_refl eq_refl eq_refl)
    as (answers & Hrun & Hlen & _ & Hpairs).
  - repeat constructor; solve [by eexists | vm_compute; lia].
  - exists answers. split; [exact Hrun |]. split; [exact Hlen | exact Hpairs].
Defined.

Lemma Find_cursor (env : Env) (db : Database) (coll : string) (opts : option SortSpec) :
  find_err env = false →
  ∃ cur, Find env db coll opts = inr cur ∧
         ∀ P : Document → Prop, Forall P (collection db coll) → Forall P cur.
Proof.
  intros Hfind. unfold Find. rewrite Hfind. eexists. split; [reflexivity |].
  intros P HP.
  assert (Hsorted : Forall P (store_sort opts (collection db coll))).
  { destruct opts as [[direction] |]; simpl; [| done].
    destruct (direction <? 0)%Z; by rewrite merge_sort_Permutation. }
  destruct (cursor_break env); [by apply Forall_take | done].
Qed.

(** C10. [GetAnswers] reads [candidate.Answers[i]] for every [i] from 0
    to 3 with no check of the length.  When every document of the branch's
    collection has at least 4 answers, the handler always ends with a
    rendered response: no index is out of range.  When the cursor reaches a
    stored candidate with fewer than 4 answers, the handler ends with the
    panic "index out of range" at the first missing index. *)
Theorem C10_GetAnswers_bounds (env : Env) (r : Request) (db : Database) (branch : string) :
  Context_Value r "branch" = Some branch →
  (Forall (λ d, questionCount ≤ len (doc_answers d)) (collection db branch) →
     ∃ status v, GetAnswers env r db = (db, Rendered status v)) ∧
  (find_err env = false → cursor_break env = None →
   ∀ pre d post,
     collection db branch = pre ++ d :: post →
     Forall (λ d, stored_candidate d ∧ questionCount ≤ len (doc_answers d)) pre →
     stored_candidate d →
     len (doc_answers d) < questionCount →
     GetAnswers env r db =
       (db, Panicked (PanicIndexOutOfRange (len (doc_answers d)) (len (doc_answers d))))).
Proof.
  intros Hbranch. split.
  - intros Hlen. unfold GetAnswers. rewrite Hbranch.
    destruct (find_err env) eqn:Hfind.
    { unfold Find. rewrite Hfind. by eexists _, _. }
    destruct (Find_cursor env db branch None Hfind) as (cur & -> & Hcur).
    pose proof (GetAnswers_loop_in_bounds r cur None None None None (Hcur _ Hlen)) as Hloop.
    change (for_each cur (GetAnswers_doc r) [None; None; None; None])
      with (for_each cur (GetAnswers_doc r) answers_zero) in Hloop.
    destruct (for_each cur _ _) as [answers | [status v | p]]; [| | done];
      by eexists _, _.
  - intros Hfind Hcursor pre d post Hdocs Hpre Hstored Hshort.
    unfold GetAnswers. rewrite Hbranch, Find_all, Hdocs by done.
    pose proof (GetAnswers_loop_short r pre post d None None None None
                  Hpre Hstored Hshort) as Hloop.
    change (for_each (pre ++ d :: post) (GetAnswers_doc r) [None; None; None; None])
      with (for_each (pre ++ d :: post) (GetAnswers_doc r) answers_zero) in Hloop.
    by rewrite Hloop.
Qed.

Lemma C10_GetAnswers_bounds_witness :
  (∃ status v,
     GetAnswers sample_env
       (sample_request "senate" EmptyString (mkCandidateRequest EmptyString None)) sample_db
     = (sample_db, Rendered status v)) ∧
  GetAnswers sample_env
    (sample_request "senate" EmptyString (mkCandidateRequest EmptyString None)) short_db
  = (short_db, Panicked (PanicIndexOutOfRange 2 2)).
Proof.
  split.
  - apply (C10_GetAnswers_bounds sample_env
             (sample_request "senate" EmptyString (mkCandidateRequest EmptyString None))
             sample_db "senate" eq_refl).
    repeat constructor; vm_compute; lia.
  - apply (C10_GetAnswers_bounds sample_env
             (sample_request "senate" EmptyString (mkCandidateRequest EmptyString None))
             short_db "senate" eq_refl) with (pre := [alice]) (d := dave) (post := []);
      try reflexivity.
    + repeat constructor; solve [by eexists | vm_compute; lia].
    + by eexists.
    + vm_compute; lia.
Defined.

(** ** List leaderboard *)

#[global] Instance votes_ge_total : Total votes_ge.
Proof. intros a b. unfold votes_ge. lia. Qed.

Lemma GetLeaderboard_doc_stored (r : Request) (d : Document) (acc : Slice LeaderboardEntry) :
  stored_candidate d → GetLeaderboard_doc r d acc = Continue (append acc (entry_of d)).
Proof.
  unfold stored_candidate, Decode_Candidate, GetLeaderboard_doc, Decode_LeaderboardEntry.
  destruct (fits_int32 _); [done | by intros [? ?]].
Qed.

Lemma GetLeaderboard_loop_ok (r : Request) (docs : list Document) (acc : Slice LeaderboardEntry) :
  Forall stored_candidate docs →
  ∃ entries, for_each docs (GetLeaderboard_doc r) acc = Continue entries ∧
             elems entries = elems acc ++ (entry_of <$> docs).
Proof.
  intros Hdocs. revert acc.
  induction Hdocs as [| d docs Hd _ IH]; intros acc.
  - exists acc. by rewrite app_nil_r.
  - rewrite for_each_cons, GetLeaderboard_doc_stored by done. simpl.
    destruct (IH (append acc (entry_of d))) as (entries & -> & Helems).
    exists entries. by rewrite Helems, elems_append, <- app_assoc.
Qed.

Lemma GetLeaderboard_loop_undecodable (r : Request) (pre post : list Document) (d : Document)
    (acc : Slice LeaderboardEntry) :
  Forall stored_candidate pre → ¬ stored_candidate d →
  for_each (pre ++ d :: post) (GetLeaderboard_doc r) acc
  = Halt (Rendered (default http_StatusOK (Status r))
            (RenderErrorResponse (NewErrorResponse "Could not decode into leaderboard entry"))).
Proof.
  intros Hpre Hd. revert acc.
  induction Hpre as [| p pre Hp _ IH]; intros acc.
  - rewrite app_nil_l, for_each_cons. unfold GetLeaderboard_doc.
    unfold stored_candidate, Decode_Candidate in Hd. unfold Decode_LeaderboardEntry.
    destruct (fits_int32 _); [| done]. destruct Hd. by eexists.
  - rewrite <- app_comm_cons, for_each_cons, GetLeaderboard_doc_stored by done.
    simpl. apply IH.
Qed.

(** The leaderboard when the store answers and every document decodes: one
    entry per candidate, in descending order of votes. *)
Lemma GetLeaderboard_sorted (env : Env) (r : Request) (db : Database) (branch : string) :
  Context_Value r "branch" = Some branch →
  find_err env = false → cursor_break env = None →
  Forall stored_candidate (collection db branch) →
  ∃ entries,
    GetLeaderboard env r db =
      (db, Rendered (default http_StatusOK (Status r))
             (RenderResponse {| Response_Status := Success;
                Response_Data := DataAny {[ "leaderboard" := AnyLeaderboard entries ]} |})) ∧
    elems entries ≡ₚ entry_of <$> collection db branch ∧
    Sorted votes_desc (elems entries).
Proof.
  intros Hbranch Hfind Hcursor Hdocs.
  unfold GetLeaderboard, Find. rewrite Hbranch, Hfind, Hcursor. simpl.
  assert (Hsorted : Forall stored_candidate (merge_sort votes_ge (collection db branch)))
    by (by rewrite merge_sort_Permutation).
  destruct (GetLeaderboard_loop_ok r _ None Hsorted) as (entries & Hloop & Helems).
  rewrite Hloop. exists entries. split; [done |]. simpl in Helems. rewrite Helems. split.
  - by rewrite merge_sort_Permutation.
  - apply (Sorted_fmap _ votes_ge); [done |]. apply Sorted_merge_sort, _.
Qed.

Lemma GetLeaderboard_find_error (env : Env) (r : Request) (db : Database) (branch : string) :
  Context_Value r "branch" = Some branch → find_err env = true →
  GetLeaderboard env r db =
    (db, Rendered (default http_StatusOK (Status r))
           (RenderErrorResponse (NewErrorResponse "Could not get cursor from db"))).
Proof.
  intros Hbranch Hfind. unfold GetLeaderboard, Find. by rewrite Hbranch, Hfind.
Qed.

Lemma GetLeaderboard_decode_error (env : Env) (r : Request) (db : Database) (branch : string)
    (pre post : list Document) (d : Document) :
  Context_Value r "branch" = Some branch →
  find_err env = false → cursor_break env = None →
  merge_sort votes_ge (collection db branch) = pre ++ d :: post →
  Forall stored_candidate pre → ¬ stored_candidate d →
  GetLeaderboard env r db =
    (db, Rendered (default http_StatusOK (Status r))
           (RenderErrorResponse (NewErrorResponse "Could not decode into leaderboard entry"))).
Proof.
  intros Hbranch Hfind Hcursor Hdocs Hpre Hd.
  unfold GetLeaderboard, Find. rewrite Hbranch, Hfind, Hcursor. simpl. rewrite Hdocs.
  by rewrite (GetLeaderboard_loop_undecodable r pre post d None Hpre Hd).
Qed.

(** C8, at a cursor that fails after its first document: [GetLeaderboard]
    never asks the cursor for its error, so the loop ends as it does at the
    end of the result, and the response is a "success" envelope whose
    leaderboard has one entry although two candidates are stored. *)
Theorem C8_GetLeaderboard_cursor_failure :
  GetLeaderboard broken_cursor_env
    (sample_request "senate" EmptyString (mkCandidateRequest EmptyString None)) sample_db
  = (sample_db, Rendered 200 (RenderResponse (NewResponseSuccess
       (DataAny {[ "leaderboard" := AnyLeaderboard (Some [entry_of carol]) ]})))) ∧
  length (collection sample_db "senate") = 2.
Proof. split; reflexivity. Qed.

(** ** The number of answers *)

(** [Bind] looks at each answer's length and never at their number. *)
Lemma Bind_any_count (name : string) (answers : list string) :
  name ≠ EmptyString →
  Forall (λ answer, String.length answer ≤ AnswerMaxLength) answers →
  Bind (mkCandidateRequest name (Some answers)) = None.
Proof.
  intros Hname Hshort. rewrite Bind_name_given by done. by apply Bind_answers_short.
Qed.

(** C1, at the submission of name "Bob" with the two answers "a" and "b":
    it passes [Bind], [PostCandidates] stores it with its two answers and
    renders "success" with status 201, and [GetAnswers] on the resulting
    store panics with an index out of range. *)
Theorem C1_PostCandidates_two_answers :
  let r := sample_request "senate" EmptyString (mkCandidateRequest "Bob" (Some ["a"; "b"])) in
  let db' := (PostCandidates sample_env r sample_db).1 in
  Bind (Decoded r) = None ∧
  PostCandidates sample_env r sample_db
    = (db', Rendered 201 (RenderResponse (NewResponseSuccess DataNil))) ∧
  collection db' "senate" = [alice; carol; mkDocument 7%N "Bob" (Some ["a"; "b"]) 0%Z] ∧
  GetAnswers sample_env r db' = (db', Panicked (PanicIndexOutOfRange 2 2)).
Proof. cbv zeta. repeat split; reflexivity. Qed.

(** ** Binding errors that are not validation errors *)

(** The claim as the specification states it, at [mismatch_request]: the
    decoder reports an error that is none of the three, and the document
    that is inserted would be the one built from the zero-valued request.
    It is the one named "Bob". *)
Lemma C9_zero_valued_counterexample :
  (render_Bind mismatch_request).2 =
    Some (ErrExternal "json: cannot unmarshal number into Go struct field CandidateRequest.answers of type []string") ∧
  collection (PostCandidates sample_env mismatch_request sample_db).1 "senate"
    = collection sample_db "senate" ++ [mkDocument 7%N "Bob" None 0%Z] ∧
  collection (PostCandidates sample_env mismatch_request sample_db).1 "senate"
    ≠ collection sample_db "senate" ++ [mkDocument 7%N EmptyString None 0%Z].
Proof. split; [reflexivity | split; [reflexivity | vm_compute; discriminate]]. Qed.

(** C9, amended. When decoding the body fails (an error that is none of the
    three validation errors), [PostCandidates] renders no "fail" envelope
    and does not return before the insert: it is the insert, of a document
    built from the request as the decoder left it with votes 0, that
    decides the response.  When the store accepts the insert, that document
    is added to the branch's collection and the response is "success" with
    status 201; the document has an empty name and nil answers when the
    decoder stored nothing, as for a body that is not JSON. *)
Theorem C9_PostCandidates_decode_error (env : Env) (r : Request) (db : Database)
    (branch message : string) :
  DecodeErr r = Some message →
  Context_Value r "branch" = Some branch →
  let name := CandidateRequest_Name (Decoded r) in
  let answers := CandidateRequest_Answers (Decoded r) in
  PostCandidates env r db =
    match InsertOne env db branch name answers 0 with
    | (db', Some _) =>
        (db', Rendered (default http_StatusOK (Status r))
                (RenderErrorResponse (NewErrorResponse
                   "There was an error adding the candidate to the database.")))
    | (db', None) =>
        (db', Rendered http_StatusCreated (RenderResponse (NewResponseSuccess DataNil)))
    end ∧
  (∀ status data,
     (PostCandidates env r db).2 ≠ Rendered status (RenderResponse (NewResponseFail data))) ∧
  (insert_err env = false → new_oid env ∉ (doc_id <$> collection db branch) →
     ∃ db',
       PostCandidates env r db =
         (db', Rendered http_StatusCreated
                 (RenderResponse {| Response_Status := Success; Response_Data := DataNil |})) ∧
       collection db' branch =
         collection db branch ++ [mkDocument (new_oid env) name answers 0] ∧
       (Decoded r = mkCandidateRequest EmptyString None →
          collection db' branch =
            collection db branch ++ [mkDocument (new_oid env) EmptyString None 0])).
Proof.
  intros Hdec Hbranch. cbv zeta.
  assert (Hrun := PostCandidates_past_checks env r db branch).
  unfold render_Bind in Hrun. rewrite Hdec in Hrun.
  specialize (Hrun eq_refl eq_refl eq_refl Hbranch).
  split; [exact Hrun |]. split.
  - intros status data. rewrite Hrun.
    by destruct (InsertOne _ _ _ _ _ _) as [db' [e |]].
  - intros Herr Hfresh. rewrite InsertOne_ok in Hrun by done.
    eexists. split; [exact Hrun |]. split.
    + apply collection_insert.
    + intros ->. apply collection_insert.
Qed.

Lemma C9_PostCandidates_decode_error_witness :
  ∃ db',
    PostCandidates sample_env mismatch_request sample_db
    = (db', Rendered 201 (RenderResponse (NewResponseSuccess DataNil))) ∧
    collection db' "senate" = [alice; carol; mkDocument 7%N "Bob" None 0%Z].
Proof.
  destruct (C9_PostCandidates_decode_error sample_env mismatch_request sample_db "senate"
              _ eq_refl eq_refl) as (_ & _ & Hok).
  destruct Hok as (db' & Hrun & Hcoll & _);
    [reflexivity | apply (bool_decide_unpack _); vm_compute; exact I |].
  exists db'. split; [exact Hrun | exact Hcoll].
Defined.

(** A body that is not JSON ends as a stored candidate with no name and no
    answers. *)
Lemma PostCandidates_malformed_body :
  PostCandidates sample_env malformed_request sample_db
  = (<["senate" := [alice; carol; mkDocument 7%N EmptyString None 0%Z]]> sample_db,
     Rendered 201 (RenderResponse (NewResponseSuccess DataNil))).
Proof. reflexivity. Qed.

(** ** List candidates *)

Lemma GetCandidates_doc_stored (r : Request) (d : Document) (acc : Slice Candidate) :
  stored_candidate d → GetCandidates_doc r d acc = Continue (append acc (candidate_of d)).
Proof. intros Hd. unfold GetCandidates_doc. by rewrite (Decode_Candidate_stored d Hd). Qed.

Lemma GetCandidates_loop_ok (r : Request) (docs : list Document) (acc : Slice Candidate) :
  Forall stored_candidate docs →
  ∃ candidates, for_each docs (GetCandidates_doc r) acc = Continue candidates ∧
                elems candidates = elems acc ++ (candidate_of <$> docs).
Proof.
  intros Hdocs. revert acc.
  induction Hdocs as [| d docs Hd _ IH]; intros acc.
  - exists acc. by rewrite app_nil_r.
  - rewrite for_each_cons, GetCandidates_doc_stored by done. simpl.
    destruct (IH (append acc (candidate_of d))) as (candidates & -> & Helems).
    exists candidates. by rewrite Helems, elems_append, <- app_assoc.
Qed.

(** The listing holds each stored candidate once, in some order. *)
Lemma GetCandidates_lists (env : Env) (r : Request) (db : Database) (branch : string) :
  Context_Value r "branch" = Some branch →
  find_err env = false → cursor_break env = None →
  Forall stored_candidate (collection db branch) →
  ∃ candidates,
    GetCandidates env r db =
      (db, Rendered (default http_StatusOK (Status r))
             (RenderResponse {| Response_Status := Success;
                Response_Data := DataAny {[ "candidates" := AnyCandidates candidates ]} |})) ∧
    elems candidates ≡ₚ candidate_of <$> collection db branch.
Proof.
  intros Hbranch Hfind Hcursor Hdocs.
  unfold GetCandidates. rewrite Hbranch, Find_all by done.
  destruct (GetCandidates_loop_ok r _ None Hdocs) as (candidates & Hloop & Helems).
  rewrite Hloop. eexists. split; [reflexivity |]. by rewrite randomize_Permutation, Helems.
Qed.

(** Round trip: a candidate created by [PostCandidates] is in a later
    listing, with votes 0 and the answers as submitted. *)
Lemma PostCandidates_round_trip (env env' : Env) (r r' : Request) (db : Database)
    (branch : string) :
  DecodeErr r = None → Bind (Decoded r) = None →
  Context_Value r "branch" = Some branch → Context_Value r' "branch" = Some branch →
  insert_err env = false → new_oid env ∉ (doc_id <$> collection db branch) →
  find_err env' = false → cursor_break env' = None →
  Forall stored_candidate (collection db branch) →
  ∃ candidates,
    (GetCandidates env' r' (PostCandidates env r db).1).2 =
      Rendered (default http_StatusOK (Status r'))
        (RenderResponse (NewResponseSuccess
           (DataAny {[ "candidates" := AnyCandidates candidates ]}))) ∧
    mkCandidate (new_oid env) (CandidateRequest_Name (Decoded r)) 0
      (CandidateRequest_Answers (Decoded r)) ∈ elems candidates.
Proof.
  intros Hdec Hbind Hbranch Hbranch' Hinsert Hfresh Hfind Hcursor Hdocs.
  assert (Hrun := PostCandidates_past_checks env r db branch).
  unfold render_Bind in Hrun. rewrite Hdec, Hbind in Hrun.
  specialize (Hrun eq_refl eq_refl eq_refl Hbranch).
  rewrite InsertOne_ok in Hrun by done. rewrite Hrun. simpl.
  set (db' := <[branch := _]> db).
  destruct (GetCandidates_lists env' r' db' branch Hbranch' Hfind Hcursor)
    as (candidates & -> & Hperm).
  - unfold db'. rewrite collection_insert. apply Forall_app. split; [done |].
    repeat constructor. by eexists.
  - exists candidates. unfold db' in Hperm. split; [done |].
    rewrite Hperm, collection_insert, fmap_app, elem_of_app. right.
    apply list_elem_of_singleton. reflexivity.
Qed.

(** ** Further properties of the validator and of randomize *)

(** X1. [Bind] accepts a request exactly when its name is not empty, its
    answers are not nil and no answer is longer than 280 bytes; nothing else
    about the request matters. *)
Theorem X1_Bind_accepts_iff (request : CandidateRequest) :
  Bind request = None ↔
  CandidateRequest_Name request ≠ EmptyString ∧
  ∃ answers, CandidateRequest_Answers request = Some answers ∧
             Forall (λ answer, String.length answer ≤ AnswerMaxLength) answers.
Proof.
  split; [apply Bind_None_inv |].
  intros (Hname & answers & Hanswers & Hshort).
  rewrite Bind_name_given by done. rewrite Hanswers. by apply Bind_answers_short.
Qed.

Lemma Shuffle_short {X} (n : nat) (swap : nat → nat → X → X) (rnd : list nat) (x : X) :
  n ≤ 1 → Shuffle n swap rnd x = x.
Proof.
  intros Hn. unfold Shuffle. by replace (n - 1) with 0 by lia.
Qed.

(** X2. [randomize] only rearranges: the shuffled slice has the elements of
    the given one, each as often, so also its length; a nil slice stays nil
    and a slice that is not nil stays so; a slice of at most one element is
    returned as it is.  This holds for every sequence of random draws. *)
Theorem X2_randomize_rearranges {T} (rnd : list nat) (x : Slice T) :
  elems (randomize rnd x) ≡ₚ elems x ∧
  len (randomize rnd x) = len x ∧
  (randomize rnd x = None ↔ x = None) ∧
  (len x ≤ 1 → randomize rnd x = x).
Proof.
  split; [apply randomize_Permutation |]. split.
  { unfold len. by rewrite randomize_Permutation. }
  split.
  - destruct x; simpl; split; congruence.
  - destruct x as [l |]; [| done]. unfold len. simpl. intros Hl.
    by rewrite Shuffle_short.
Qed.

Lemma X2_randomize_rearranges_witness :
  randomize [5; 3; 8; 1] (Some ["only"]) = Some ["only"] ∧
  elems (randomize [5; 3; 8; 1] (Some [1; 2; 3; 4; 5])) ≡ₚ [1; 2; 3; 4; 5].
Proof.
  split.
  - apply (X2_randomize_rearranges [5; 3; 8; 1] (Some ["only"])). vm_compute. lia.
  - apply (X2_randomize_rearranges [5; 3; 8; 1] (Some [1; 2; 3; 4; 5])).
Defined.

(** ** Further properties of the listing handlers *)

Lemma Find_delivered (env : Env) (db : Database) (coll : string) (opts : option SortSpec) :
  find_err env = false →
  Find env db coll opts = inr (delivered env (store_sort opts (collection db coll))).
Proof. intros Hfind. unfold Find, delivered. by rewrite Hfind. Qed.

Lemma Find_failed (env : Env) (db : Database) (coll : string) (opts : option SortSpec) :
  find_err env = true → Find env db coll opts = inl (ErrExternal "find").
Proof. intros Hfind. unfold Find. by rewrite Hfind. Qed.

Lemma GetCandidates_loop_undecodable (r : Request) (pre post : list Document) (d : Document)
    (acc : Slice Candidate) :
  Forall stored_candidate pre → ¬ stored_candidate d →
  for_each (pre ++ d :: post) (GetCandidates_doc r) acc
  = Halt (Rendered (default http_StatusOK (Status r))
            (RenderErrorResponse (NewErrorResponse "Could not decode into candidate"))).
Proof.
  intros Hpre Hd. revert acc.
  induction Hpre as [| p pre Hp _ IH]; intros acc.
  - rewrite app_nil_l, for_each_cons. unfold GetCandidates_doc.
    unfold stored_candidate in Hd. destruct (Decode_Candidate d); [| done].
    destruct Hd. by eexists.
  - rewrite <- app_comm_cons, for_each_cons, GetCandidates_doc_stored by done.
    simpl. apply IH.
Qed.

(** X3. When [Find] succeeds and every document the cursor delivers
    decodes, [GetCandidates] renders a "success" envelope holding, under
    "candidates", the delivered candidates, each once and in some order,
    with id, name, votes and answers as stored. *)
Theorem X3_GetCandidates_lists (env : Env) (r : Request) (db : Database) (branch : string) :
  Context_Value r "branch" = Some branch →
  find_err env = false →
  Forall stored_candidate (delivered env (collection db branch)) →
  ∃ candidates,
    GetCandidates env r db =
      (db, Rendered (default http_StatusOK (Status r))
             (RenderResponse {| Response_Status := Success;
                Response_Data := DataAny {[ "candidates" := AnyCandidates candidates ]} |})) ∧
    elems candidates ≡ₚ candidate_of <$> delivered env (collection db branch).
Proof.
  intros Hbranch Hfind Hdocs.
  unfold GetCandidates. rewrite Hbranch, Find_delivered by done. simpl store_sort.
  destruct (GetCandidates_loop_ok r _ None Hdocs) as (candidates & Hloop & Helems).
  rewrite Hloop. eexists. split; [reflexivity |].
  by rewrite randomize_Permutation, Helems.
Qed.

Lemma X3_GetCandidates_lists_witness :
  ∃ candidates,
    GetCandidates sample_env
      (sample_request "senate" EmptyString (mkCandidateRequest EmptyString None)) sample_db
    = (sample_db, Rendered 200 (RenderResponse (NewResponseSuccess
         (DataAny {[ "candidates" := AnyCandidates candidates ]})))) ∧
    elems candidates ≡ₚ [candidate_of alice; candidate_of carol].
Proof.
  apply (X3_GetCandidates_lists sample_env
           (sample_request "senate" EmptyString (mkCandidateRequest EmptyString None))
           sample_db "senate" eq_refl eq_refl).
  repeat constructor; by eexists.
Defined.

(** X4. [GetCandidates] gives no partial listing: when [Find] fails it
    renders the "error" envelope "Could not get cursor from db", and when
    the cursor reaches a document that does not decode it renders the
    "error" envelope "Could not decode into candidate", whatever was decoded
    before. *)
Theorem X4_GetCandidates_errors (env : Env) (r : Request) (db : Database) (branch : string) :
  Context_Value r "branch" = Some branch →
  (find_err env = true →
     GetCandidates env r db =
       (db, Rendered (default http_StatusOK (Status r))
              (RenderErrorResponse {| ErrorResponse_Status := Error;
                 ErrorResponse_Message := "Could not get cursor from db" |}))) ∧
  (find_err env = false →
   ∀ pre d post,
     delivered env (collection db branch) = pre ++ d :: post →
     Forall stored_candidate pre → ¬ stored_candidate d →
     GetCandidates env r db =
       (db, Rendered (default http_StatusOK (Status r))
              (RenderErrorResponse {| ErrorResponse_Status := Error;
                 ErrorResponse_Message := "Could not decode into candidate" |}))).
Proof.
  intros Hbranch. split.
  - intros Hfind. unfold GetCandidates. by rewrite Hbranch, Find_failed.
  - intros Hfind pre d post Hdocs Hpre Hd.
    unfold GetCandidates. rewrite Hbranch, Find_delivered by done. simpl store_sort.
    by rewrite Hdocs, GetCandidates_loop_undecodable.
Qed.

Lemma X4_GetCandidates_errors_witness :
  GetCandidates find_fails_env plain_request sample_db
  = (sample_db, Rendered 200 (RenderErrorResponse
       (NewErrorResponse "Could not get cursor from db"))) ∧
  GetCandidates sample_env plain_request overflow_db
  = (overflow_db, Rendered 200 (RenderErrorResponse
       (NewErrorResponse "Could not decode into candidate"))).
Proof.
  split.
  - apply (X4_GetCandidates_errors find_fails_env plain_request sample_db "senate" eq_refl).
    reflexivity.
  - apply (X4_GetCandidates_errors sample_env plain_request overflow_db "senate" eq_refl)
      with (pre := [alice]) (d := eve) (post := [carol]); try reflexivity.
    + repeat constructor. by eexists.
    + intros [c Hc]. vm_compute in Hc. discriminate.
Defined.

(** X5. On a collection without documents, also one that was never
    written, the listings hold nil slices: "candidates" and "leaderboard"
    are nil, not empty slices, and "answers" is an array of 4 nil buckets. *)
Theorem X5_empty_collection_nil (env : Env) (r : Request) (db : Database) (branch : string) :
  Context_Value r "branch" = Some branch →
  find_err env = false →
  collection db branch = [] →
  let success key v :=
    (db, Rendered (default http_StatusOK (Status r))
           (RenderResponse {| Response_Status := Success;
                              Response_Data := DataAny {[ key := v ]} |})) in
  GetCandidates env r db = success "candidates" (AnyCandidates None) ∧
  GetAnswers env r db = success "answers" (AnyAnswers [None; None; None; None]) ∧
  GetLeaderboard env r db = success "leaderboard" (AnyLeaderboard None).
Proof.
  intros Hbranch Hfind Hempty. cbv zeta.
  assert (Hcur : ∀ opts, Find env db branch opts = inr []).
  { intros opts. rewrite Find_delivered by done. rewrite Hempty. unfold delivered.
    assert (store_sort opts [] = []) as -> by (by destruct opts as [[[| |]] |]).
    destruct (cursor_break env); [by rewrite take_nil | done]. }
  unfold GetCandidates, GetAnswers, GetLeaderboard.
  by rewrite Hbranch, !Hcur.
Qed.

Lemma X5_empty_collection_nil_witness :
  GetCandidates sample_env
    (sample_request "treasury" EmptyString (mkCandidateRequest EmptyString None)) sample_db
  = (sample_db, Rendered 200 (RenderResponse (NewResponseSuccess
       (DataAny {[ "candidates" := AnyCandidates None ]})))).
Proof.
  apply (X5_empty_collection_nil sample_env
           (sample_request "treasury" EmptyString (mkCandidateRequest EmptyString None))
           sample_db "treasury" eq_refl eq_refl).
  reflexivity.
Defined.

(** X6. The listing handlers and [GetQuestions] never write: whatever the
    request, the store and the environment, and however the handler ends
    (response, error or panic), the store is returned as it was. *)
Theorem X6_listings_read_only (h : Handler) (env : Env) (r : Request) (db : Database) :
  h ∈ listing_handlers → (h env r db).1 = db.
Proof.
  unfold listing_handlers. rewrite !elem_of_cons, elem_of_nil.
  intros [-> | [-> | [-> | [-> | []]]]];
    unfold GetCandidates, GetAnswers, GetLeaderboard, GetQuestions;
    repeat case_match; done.
Qed.

Lemma X6_listings_read_only_witness :
  (GetAnswers sample_env plain_request short_db).1 = short_db.
Proof.
  apply (X6_listings_read_only GetAnswers sample_env plain_request short_db).
  unfold listing_handlers. apply list_elem_of_further, list_elem_of_here.
Defined.

(** ** Further properties of the writing handlers *)

Lemma collection_insert_ne (coll other : string) (docs : list Document) (db : Database) :
  coll ≠ other → collection (<[coll := docs]> db) other = collection db other.
Proof. intros Hne. unfold collection. by rewrite lookup_insert_ne. Qed.

(** What [PostCandidates] does to the store: nothing, or the insert that it
    answers with status 201. *)
Lemma PostCandidates_store (env : Env) (r : Request) (db : Database) :
  let created := Rendered http_StatusCreated (RenderResponse (NewResponseSuccess DataNil)) in
  ((PostCandidates env r db).1 = db ∧ (PostCandidates env r db).2 ≠ created) ∨
  ∃ branch,
    Context_Value r "branch" = Some branch ∧
    PostCandidates env r db =
      (<[branch := collection db branch ++
           [mkDocument (new_oid env) (CandidateRequest_Name (Decoded r))
              (CandidateRequest_Answers (Decoded r)) 0]]> db, created).
Proof.
  cbv zeta. unfold PostCandidates.
  assert (Hdata : (render_Bind r).1 = Decoded r).
  { unfold render_Bind. by destruct (DecodeErr r). }
  destruct (render_Bind r) as [data err]. simpl in Hdata. subst data.
  destruct (errors_Is err ErrMissingName); [by left |].
  destruct (errors_Is err ErrMissingAnswers || errors_Is err ErrAnswersTooLong); [by left |].
  destruct (Context_Value r "branch") as [branch |]; [| by left].
  unfold InsertOne.
  destruct (insert_err env || bool_decide _); [by left |].
  right. by exists branch.
Qed.

(** X7. [PostCandidates] never removes or changes a stored document:
    whatever the request and the environment, every collection afterwards
    starts with the documents it had, in their order, followed by at most
    one new document. *)
Theorem X7_PostCandidates_keeps_documents (env : Env) (r : Request) (db : Database)
    (coll : string) :
  collection db coll `prefix_of` collection (PostCandidates env r db).1 coll ∧
  length (collection (PostCandidates env r db).1 coll) ≤ S (length (collection db coll)).
Proof.
  destruct (PostCandidates_store env r db) as [[-> _] | (branch & _ & ->)]; simpl.
  - split; [done | lia].
  - destruct (decide (branch = coll)) as [-> | Hne].
    + rewrite collection_insert, length_app. simpl.
      split; [by apply prefix_app_r | lia].
    + rewrite collection_insert_ne by done. split; [done | lia].
Qed.

(** X8. [PostCandidates] stores a candidate exactly when it answers
    "success" with status 201: that response comes with the insert of the
    one document built from the request, with votes 0, into the collection
    of the branch in the context, and with every other response, or a panic,
    the store is as before. *)
Theorem X8_PostCandidates_created_iff_stored (env : Env) (r : Request) (db : Database) :
  let created := Rendered http_StatusCreated (RenderResponse (NewResponseSuccess DataNil)) in
  ((PostCandidates env r db).2 = created →
     ∃ branch,
       Context_Value r "branch" = Some branch ∧
       (PostCandidates env r db).1 =
         <[branch := collection db branch ++
             [mkDocument (new_oid env) (CandidateRequest_Name (Decoded r))
                (CandidateRequest_Answers (Decoded r)) 0]]> db) ∧
  ((PostCandidates env r db).2 ≠ created → (PostCandidates env r db).1 = db).
Proof.
  cbv zeta. destruct (PostCandidates_store env r db) as [[Hdb Hout] | (branch & Hctx & Hrun)].
  - split; [done | by intros _].
  - rewrite Hrun. simpl. split; [| done]. intros _. by exists branch.
Qed.

Lemma X8_PostCandidates_created_iff_stored_witness :
  (∃ branch,
     Context_Value (sample_request "senate" EmptyString
                      (mkCandidateRequest "Bob" (Some ["a"; "b"; "c"; "d"]))) "branch"
       = Some branch ∧
     (PostCandidates sample_env
        (sample_request "senate" EmptyString
           (mkCandidateRequest "Bob" (Some ["a"; "b"; "c"; "d"]))) sample_db).1
     = <[branch := collection sample_db branch ++
           [mkDocument 7%N "Bob" (Some ["a"; "b"; "c"; "d"]) 0]]> sample_db) ∧
  (PostCandidates sample_env
     (sample_request "senate" EmptyString (mkCandidateRequest "Bob" None)) sample_db).1
  = sample_db.
Proof.
  split.
  - apply (X8_PostCandidates_created_iff_stored sample_env
             (sample_request "senate" EmptyString
                (mkCandidateRequest "Bob" (Some ["a"; "b"; "c"; "d"]))) sample_db).
    reflexivity.
  - apply (X8_PostCandidates_created_iff_stored sample_env
             (sample_request "senate" EmptyString (mkCandidateRequest "Bob" None)) sample_db).
    vm_compute. discriminate.
Defined.

Lemma update_first_cases (id : ObjectID) (u : Update) (docs : list Document) :
  update_first id u docs = docs ∨
  ∃ pre d post,
    docs = pre ++ d :: post ∧ doc_id d = id ∧ (id ∉ (doc_id <$> pre)) ∧
    update_first id u docs = pre ++ apply_update u d :: post.
Proof.
  destruct (decide (id ∈ (doc_id <$> docs))) as [Hin | Hnotin].
  - right. destruct (first_with_id _ _ Hin) as (pre & d & post & -> & Hd & Hpre).
    exists pre, d, post. repeat split; [done .. |]. by apply update_first_at.
  - left. by apply update_first_absent.
Qed.

(** What [PatchVotes] does to the store: nothing, or the one update that it
    answers with "success". *)
Lemma PatchVotes_store (env : Env) (r : Request) (db : Database) :
  ((PatchVotes env r db).1 = db ∧
   ∀ status, (PatchVotes env r db).2 ≠
               Rendered status (RenderResponse (NewResponseSuccess DataNil))) ∨
  ∃ id branch,
    ObjectIDFromHex (chi_URLParam r "id") = Some id ∧
    Context_Value r "branch" = Some branch ∧
    update_err env = false ∧
    PatchVotes env r db =
      (alter (update_first id (IncVotes 1)) branch db,
       Rendered (default http_StatusOK (Status r))
         (RenderResponse (NewResponseSuccess DataNil))).
Proof.
  unfold PatchVotes, UpdateOne.
  destruct (ObjectIDFromHex _) as [id |]; [| by left].
  destruct (Context_Value r "branch") as [branch |]; [| by left].
  destruct (update_err env) eqn:Herr; [by left |].
  right. by exists id, branch.
Qed.

(** X9. A [PatchVotes] request changes at most one document and only its
    votes: whatever the request and the environment, each collection
    afterwards is the one before, or the one before with a single document
    given one more vote, its id, name and answers untouched.  Unless the
    response is the "success" envelope, the store is unchanged. *)
Theorem X9_PatchVotes_one_vote (env : Env) (r : Request) (db : Database) (coll : string) :
  (collection (PatchVotes env r db).1 coll = collection db coll ∨
   ∃ pre d post,
     collection db coll = pre ++ d :: post ∧
     collection (PatchVotes env r db).1 coll =
       pre ++ mkDocument (doc_id d) (doc_name d) (doc_answers d) (doc_votes d + 1) :: post) ∧
  ((∀ status, (PatchVotes env r db).2 ≠
                Rendered status (RenderResponse (NewResponseSuccess DataNil))) →
   (PatchVotes env r db).1 = db).
Proof.
  destruct (PatchVotes_store env r db) as [[Hdb Hout] | (id & branch & _ & _ & _ & Hrun)].
  - rewrite Hdb. split; [by left | done].
  - rewrite Hrun. simpl. split.
    + destruct (decide (branch = coll)) as [-> | Hne].
      * rewrite collection_alter by done.
        destruct (update_first_cases id (IncVotes 1) (collection db coll))
          as [-> | (pre & d & post & Hdocs & _ & _ & ->)]; [by left |].
        right. by exists pre, d, post.
      * left. unfold collection. by rewrite lookup_alter_ne.
    + intros Hout. by destruct (Hout (default http_StatusOK (Status r))).
Qed.

Lemma X9_PatchVotes_one_vote_witness :
  (PatchVotes update_fails_env
     (sample_request "senate" "000000000000000000000002" (mkCandidateRequest EmptyString None))
     sample_db).1 = sample_db.
Proof.
  apply (X9_PatchVotes_one_vote update_fails_env
           (sample_request "senate" "000000000000000000000002"
              (mkCandidateRequest EmptyString None))
           sample_db "senate").
  intros status. vm_compute. discriminate.
Defined.

Lemma voted_0 (d : Document) : voted 0 d = d.
Proof. destruct d. unfold voted. simpl. f_equal. lia. Qed.

Lemma voted_voted (n m : Z) (d : Document) : voted n (voted m d) = voted (m + n) d.
Proof. unfold voted. simpl. f_equal. lia. Qed.

(** X10. Votes add up: after [n] [PatchVotes] requests for the same
    well-formed id, none of them failing in the store, the first document
    with that id has [n] more votes, and the collection is otherwise as it
    was. *)
Theorem X10_PatchVotes_each_adds (envs : list Env) (r : Request) (db : Database)
    (id : ObjectID) (branch : string) (pre post : list Document) (d : Document) :
  ObjectIDFromHex (chi_URLParam r "id") = Some id →
  Context_Value r "branch" = Some branch →
  Forall (λ env, update_err env = false) envs →
  collection db branch = pre ++ d :: post →
  doc_id d = id → id ∉ (doc_id <$> pre) →
  collection (PatchVotes_each envs r db) branch =
    pre ++ mkDocument (doc_id d) (doc_name d) (doc_answers d)
             (doc_votes d + Z.of_nat (length envs)) :: post.
Proof.
  intros Hid Hbranch Henvs Hdocs Hd Hpre.
  change (mkDocument (doc_id d) (doc_name d) (doc_answers d)
            (doc_votes d + Z.of_nat (length envs)))
    with (voted (Z.of_nat (length envs)) d).
  revert db d Hdocs Hd.
  induction Henvs as [| env envs Hok _ IH]; intros db d Hdocs Hd; simpl PatchVotes_each.
  - by rewrite voted_0.
  - rewrite (IH _ (voted 1 d)); [| | done].
    + rewrite voted_voted. do 3 f_equal. simpl length. lia.
    + unfold PatchVotes, UpdateOne. rewrite Hid, Hbranch, Hok. simpl.
      rewrite collection_alter by done. rewrite Hdocs. by apply update_first_at.
Qed.

Lemma X10_PatchVotes_each_adds_witness :
  collection
    (PatchVotes_each [sample_env; sample_env; sample_env]
       (sample_request "senate" "000000000000000000000002" (mkCandidateRequest EmptyString None))
       sample_db) "senate"
  = [alice; mkDocument 2%N "Carol" (Some ["c0"; "c1"; "c2"; "c3"]) (5 + 3)%Z].
Proof.
  apply (X10_PatchVotes_each_adds [sample_env; sample_env; sample_env]
           (sample_request "senate" "000000000000000000000002"
              (mkCandidateRequest EmptyString None))
           sample_db 2%N "senate" [alice] [] carol); try reflexivity.
  - repeat constructor.
  - apply (bool_decide_unpack _). vm_compute. exact I.
Defined.

(** X16. A candidate created by [PostCandidates] and then voted for once
    through [PatchVotes] with the id it was given is stored with votes 1 and
    with the name and the answers as submitted, after the documents the
    collection had. *)
Theorem X16_created_then_voted (env env' : Env) (r r' : Request) (db : Database)
    (branch : string) :
  DecodeErr r = None → Bind (Decoded r) = None →
  Context_Value r "branch" = Some branch →
  insert_err env = false → new_oid env ∉ (doc_id <$> collection db branch) →
  Context_Value r' "branch" = Some branch →
  ObjectIDFromHex (chi_URLParam r' "id") = Some (new_oid env) →
  update_err env' = false →
  collection (PatchVotes env' r' (PostCandidates env r db).1).1 branch =
    collection db branch ++
      [mkDocument (new_oid env) (CandidateRequest_Name (Decoded r))
         (CandidateRequest_Answers (Decoded r)) 1].
Proof.
  intros Hdec Hbind Hbranch Hinsert Hfresh Hbranch' Hid Hupdate.
  assert (Hrun := PostCandidates_past_checks env r db branch).
  unfold render_Bind in Hrun. rewrite Hdec, Hbind in Hrun.
  specialize (Hrun eq_refl eq_refl eq_refl Hbranch).
  rewrite InsertOne_ok in Hrun by done. rewrite Hrun. simpl.
  unfold PatchVotes, UpdateOne. rewrite Hid, Hbranch', Hupdate. simpl.
  rewrite collection_alter by done. rewrite collection_insert.
  by rewrite update_first_at.
Qed.

Lemma X16_created_then_voted_witness :
  collection
    (PatchVotes sample_env
       (sample_request "senate" "000000000000000000000007" (mkCandidateRequest EmptyString None))
       (PostCandidates sample_env
          (sample_request "senate" EmptyString
             (mkCandidateRequest "Bob" (Some ["a"; "b"; "c"; "d"]))) sample_db).1).1 "senate"
  = collection sample_db "senate" ++ [mkDocument 7%N "Bob" (Some ["a"; "b"; "c"; "d"]) 1].
Proof.
  apply (X16_created_then_voted sample_env sample_env
           (sample_request "senate" EmptyString
              (mkCandidateRequest "Bob" (Some ["a"; "b"; "c"; "d"])))
           (sample_request "senate" "000000000000000000000007"
              (mkCandidateRequest EmptyString None))
           sample_db "senate"); try reflexivity.
  apply (bool_decide_unpack _). vm_compute. exact I.
Defined.

(** ** The handlers behind the branch resolver *)

Lemma for_each_Halt_inv {S X} (xs : list X) (body : X → S → Flow S) (s : S) (o : Outcome) :
  for_each xs body s = Halt o → ∃ x s', x ∈ xs ∧ body x s' = Halt o.
Proof.
  revert s. induction xs as [| x rest IH]; intros s; [done |].
  rewrite for_each_cons. destruct (body x s) as [s' |o'] eqn:Hbody; simpl.
  - intros (y & t & Hy & Hhalt)%IH. exists y, t. split; [by right | done].
  - intros [= ->]. exists x, s. split; [by left | done].
Qed.

Lemma GetAnswers_doc_Halt (r : Request) (d : Document) (answers : list (Slice Answer))
    (o : Outcome) :
  GetAnswers_doc r d answers = Halt o → o ≠ Panicked PanicInterfaceConversion.
Proof.
  unfold GetAnswers_doc. destruct (Decode_Candidate d) as [candidate |]; [| by intros [= <-]].
  intros (i & s & _ & Hq)%for_each_Halt_inv. unfold GetAnswers_question in Hq.
  destruct (index _ i); [done |]. by injection Hq as <-.
Qed.

Lemma GetCandidates_store (env : Env) (r : Request) (db : Database) :
  (GetCandidates env r db).1 = db.
Proof. unfold GetCandidates. by repeat case_match. Qed.

Lemma GetAnswers_store (env : Env) (r : Request) (db : Database) :
  (GetAnswers env r db).1 = db.
Proof. unfold GetAnswers. by repeat case_match. Qed.

Lemma GetLeaderboard_store (env : Env) (r : Request) (db : Database) :
  (GetLeaderboard env r db).1 = db.
Proof. unfold GetLeaderboard. by repeat case_match. Qed.

(** With the branch in the context no handler fails on reading it. *)
Lemma branch_handlers_read_branch (h : Handler) (env : Env) (r : Request) (db : Database)
    (branch : string) :
  h ∈ branch_handlers → Context_Value r "branch" = Some branch →
  (h env r db).2 ≠ Panicked PanicInterfaceConversion.
Proof.
  unfold branch_handlers. rewrite !elem_of_cons, elem_of_nil.
  intros [-> | [-> | [-> | [-> | [-> | []]]]]] Hbranch.
  - unfold GetCandidates. rewrite Hbranch.
    destruct (Find _ _ _ _) as [e | cur]; [done |].
    destruct (for_each _ _ _) as [candidates | o] eqn:Hloop; [done |]. simpl.
    apply for_each_Halt_inv in Hloop as (d & s & _ & Hdoc).
    unfold GetCandidates_doc in Hdoc. destruct (Decode_Candidate d); [done |].
    by injection Hdoc as <-.
  - destruct (PostCandidates_store env r db) as [[_ Hout] | (b & _ & ->)]; [| done].
    unfold PostCandidates in *. destruct (render_Bind r) as [data err].
    destruct (errors_Is err ErrMissingName); [done |].
    destruct (errors_Is err ErrMissingAnswers || errors_Is err ErrAnswersTooLong); [done |].
    rewrite Hbranch. by destruct (InsertOne _ _ _ _ _ _) as [db' [e |]].
  - unfold PatchVotes. destruct (ObjectIDFromHex _); [| done]. rewrite Hbranch.
    by destruct (UpdateOne _ _ _ _ _) as [db' [e |]].
  - unfold GetAnswers. rewrite Hbranch.
    destruct (Find _ _ _ _) as [e | cur]; [done |].
    destruct (for_each _ _ _) as [answers | o] eqn:Hloop; [done |]. simpl.
    apply for_each_Halt_inv in Hloop as (d & s & _ & Hdoc).
    by eapply GetAnswers_doc_Halt.
  - unfold GetLeaderboard. rewrite Hbranch.
    destruct (Find _ _ _ _) as [e | cur]; [done |].
    destruct (for_each _ _ _) as [entries | o] eqn:Hloop; [done |]. simpl.
    apply for_each_Halt_inv in Hloop as (d & s & _ & Hdoc).
    unfold GetLeaderboard_doc in Hdoc. destruct (Decode_LeaderboardEntry d); [done |].
    by injection Hdoc as <-.
Qed.

(** With the branch in the context a handler writes to that collection
    only. *)
Lemma branch_handlers_write_branch (h : Handler) (env : Env) (r : Request) (db : Database)
    (branch other : string) :
  h ∈ branch_handlers → Context_Value r "branch" = Some branch → other ≠ branch →
  (h env r db).1 !! other = db !! other.
Proof.
  unfold branch_handlers. rewrite !elem_of_cons, elem_of_nil.
  intros [-> | [-> | [-> | [-> | [-> | []]]]]] Hbranch Hother.
  - by rewrite GetCandidates_store.
  - destruct (PostCandidates_store env r db) as [[-> _] | (b & Hb & ->)]; [done |].
    simpl. rewrite lookup_insert_ne; [done | congruence].
  - destruct (PatchVotes_store env r db) as [[-> _] | (id & b & _ & Hb & _ & ->)]; [done |].
    simpl. rewrite lookup_alter_ne; [done | congruence].
  - by rewrite GetAnswers_store.
  - by rewrite GetLeaderboard_store.
Qed.

Lemma BranchCtx_cases (next : Handler) (env : Env) (r : Request) (db : Database) :
  (BranchCtx next env r db).1 = db ∧
  (∃ status v, (BranchCtx next env r db).2 = Rendered status v) ∨
  ∃ branch,
    (branch = "senate" ∨ branch = "treasury") ∧
    chi_URLParam r "branch" = branch ∧
    Context_Value (WithValue r "branch" branch) "branch" = Some branch ∧
    BranchCtx next env r db = next env (WithValue r "branch" branch) db.
Proof.
  unfold BranchCtx.
  destruct (String.eqb_spec (chi_URLParam r "branch") "senate") as [Hs | Hs];
    [| destruct (String.eqb_spec (chi_URLParam r "branch") "treasury") as [Ht | Ht]]; simpl.
  - right. exists "senate". rewrite Hs. repeat split; [by left |].
    unfold Context_Value, WithValue; simpl. apply lookup_insert_eq.
  - right. exists "treasury". rewrite Ht. repeat split; [by right |].
    unfold Context_Value, WithValue; simpl. apply lookup_insert_eq.
  - left. split; [done |]. by eexists _, _.
Qed.

(** X11. Behind [BranchCtx] none of the handlers can fail on reading the
    branch from the context (the type assertion on a missing value), whatever
    the request; without the resolver, a request whose context has no branch
    makes each listing handler panic there, before it reads the store. *)
Theorem X11_BranchCtx_provides_branch (env : Env) (r : Request) (db : Database) :
  (∀ h, h ∈ branch_handlers →
     (BranchCtx h env r db).2 ≠ Panicked PanicInterfaceConversion) ∧
  (Context_Value r "branch" = None →
   ∀ h, h ∈ [GetCandidates; GetAnswers; GetLeaderboard] →
     h env r db = (db, Panicked PanicInterfaceConversion)).
Proof.
  split.
  - intros h Hh.
    destruct (BranchCtx_cases h env r db)
      as [[_ (status & v & ->)] | (branch & _ & _ & Hctx & ->)]; [done |].
    by eapply branch_handlers_read_branch.
  - intros Hnone h. rewrite !elem_of_cons, elem_of_nil.
    intros [-> | [-> | [-> | []]]];
      unfold GetCandidates, GetAnswers, GetLeaderboard; by rewrite Hnone.
Qed.

Lemma X11_BranchCtx_provides_branch_witness :
  GetLeaderboard sample_env
    {| URLParams := {[ "branch" := "senate" ]}; Context := ∅; Status := None;
       Decoded := mkCandidateRequest EmptyString None; DecodeErr := None |} sample_db
  = (sample_db, Panicked PanicInterfaceConversion).
Proof.
  apply (X11_BranchCtx_provides_branch sample_env
           {| URLParams := {[ "branch" := "senate" ]}; Context := ∅; Status := None;
              Decoded := mkCandidateRequest EmptyString None; DecodeErr := None |} sample_db).
  - reflexivity.
  - do 2 apply list_elem_of_further. apply list_elem_of_here.
Defined.

(** X12. The branches are separate: a request that comes through
    [BranchCtx] leaves every collection other than the one named by its
    branch parameter as it was, and never touches a collection that is
    neither "senate" nor "treasury". *)
Theorem X12_BranchCtx_isolates_branches (h : Handler) (env : Env) (r : Request)
    (db : Database) (other : string) :
  h ∈ branch_handlers →
  other ≠ chi_URLParam r "branch" ∨ (other ≠ "senate" ∧ other ≠ "treasury") →
  (BranchCtx h env r db).1 !! other = db !! other.
Proof.
  intros Hh Hother.
  destruct (BranchCtx_cases h env r db)
    as [[-> _] | (branch & Hallowed & Hparam & Hctx & ->)]; [done |].
  eapply branch_handlers_write_branch; [done .. |].
  destruct Hother as [? | [? ?]]; [congruence |].
  by destruct Hallowed as [-> | ->].
Qed.

Lemma X12_BranchCtx_isolates_branches_witness :
  (BranchCtx PostCandidates sample_env
     (sample_request "treasury" EmptyString
        (mkCandidateRequest "Bob" (Some ["a"; "b"; "c"; "d"]))) sample_db).1 !! "senate"
  = sample_db !! "senate".
Proof.
  apply (X12_BranchCtx_isolates_branches PostCandidates sample_env
           (sample_request "treasury" EmptyString
              (mkCandidateRequest "Bob" (Some ["a"; "b"; "c"; "d"]))) sample_db "senate").
  - apply list_elem_of_further, list_elem_of_here.
  - left. vm_compute. discriminate.
Defined.

(** ** Further properties of the leaderboard and of the answers *)

#[global] Instance stored_candidate_dec (d : Document) : Decision (stored_candidate d).
Proof. unfold stored_candidate. apply _. Defined.

(** The first document of a list that does not decode. *)
Lemma first_undecodable (docs : list Document) :
  ¬ Forall stored_candidate docs →
  ∃ pre d post, docs = pre ++ d :: post ∧ Forall stored_candidate pre ∧ ¬ stored_candidate d.
Proof.
  induction docs as [| d docs IH]; intros Hnot; [by destruct Hnot |].
  destruct (decide (stored_candidate d)) as [Hd | Hd].
  - destruct IH as (pre & d' & post & -> & Hpre & Hd').
    { intros Hdocs. apply Hnot. by constructor. }
    exists (d :: pre), d', post. repeat split; [by constructor | done].
  - by exists [], d, docs.
Qed.

#[global] Instance votes_desc_trans : Transitive votes_desc.
Proof. intros a b c. unfold votes_desc. lia. Qed.

(** X13. When the store answers and every document decodes,
    [GetLeaderboard] renders a "success" envelope holding, under
    "leaderboard", one entry (id, name, votes) per stored candidate, each
    entry having at least the votes of the entries after it; so the first
    entry has the most votes of the collection. *)
Theorem X13_GetLeaderboard_ranks (env : Env) (r : Request) (db : Database) (branch : string) :
  Context_Value r "branch" = Some branch →
  find_err env = false → cursor_break env = None →
  Forall stored_candidate (collection db branch) →
  ∃ entries,
    GetLeaderboard env r db =
      (db, Rendered (default http_StatusOK (Status r))
             (RenderResponse {| Response_Status := Success;
                Response_Data := DataAny {[ "leaderboard" := AnyLeaderboard entries ]} |})) ∧
    elems entries ≡ₚ entry_of <$> collection db branch ∧
    StronglySorted votes_desc (elems entries) ∧
    (∀ first rest d,
       elems entries = first :: rest → d ∈ collection db branch →
       (doc_votes d ≤ LeaderboardEntry_Votes first)%Z).
Proof.
  intros Hbranch Hfind Hcursor Hdocs.
  destruct (GetLeaderboard_sorted env r db branch Hbranch Hfind Hcursor Hdocs)
    as (entries & Hrun & Hperm & Hsorted).
  exists entries. split; [done |]. split; [done |].
  apply Sorted_StronglySorted in Hsorted; [| apply _]. split; [done |].
  intros first rest d Hentries Hd.
  assert (Hin : entry_of d ∈ elems entries).
  { rewrite Hperm. by apply list_elem_of_fmap_2. }
  rewrite Hentries in Hin, Hsorted. apply StronglySorted_inv in Hsorted as [_ Hfirst].
  apply elem_of_cons in Hin as [<- | Hin]; [simpl; lia |].
  rewrite Forall_forall in Hfirst. apply (Hfirst _ Hin).
Qed.

Lemma X13_GetLeaderboard_ranks_witness :
  ∃ entries,
    GetLeaderboard sample_env plain_request sample_db
    = (sample_db, Rendered 200 (RenderResponse (NewResponseSuccess
         (DataAny {[ "leaderboard" := AnyLeaderboard entries ]})))) ∧
    elems entries ≡ₚ [entry_of alice; entry_of carol] ∧
    StronglySorted votes_desc (elems entries).
Proof.
  destruct (X13_GetLeaderboard_ranks sample_env plain_request sample_db "senate"
              eq_refl eq_refl eq_refl) as (entries & Hrun & Hperm & Hsorted & _).
  - repeat constructor; by eexists.
  - exists entries. split; [exact Hrun |]. split; [exact Hperm | exact Hsorted].
Defined.

(** X14. [GetLeaderboard] gives no partial leaderboard: when [Find] fails
    it renders the "error" envelope "Could not get cursor from db", and when
    the cursor runs to its end over a collection holding a document that does
    not decode, wherever the sort puts it, it renders the "error" envelope
    "Could not decode into leaderboard entry". *)
Theorem X14_GetLeaderboard_errors (env : Env) (r : Request) (db : Database) (branch : string) :
  Context_Value r "branch" = Some branch →
  (find_err env = true →
     GetLeaderboard env r db =
       (db, Rendered (default http_StatusOK (Status r))
              (RenderErrorResponse {| ErrorResponse_Status := Error;
                 ErrorResponse_Message := "Could not get cursor from db" |}))) ∧
  (find_err env = false → cursor_break env = None →
   ¬ Forall stored_candidate (collection db branch) →
     GetLeaderboard env r db =
       (db, Rendered (default http_StatusOK (Status r))
              (RenderErrorResponse {| ErrorResponse_Status := Error;
                 ErrorResponse_Message := "Could not decode into leaderboard entry" |}))).
Proof.
  intros Hbranch. split.
  - intros Hfind. by apply (GetLeaderboard_find_error env r db branch).
  - intros Hfind Hcursor Hnot.
    destruct (first_undecodable (merge_sort votes_ge (collection db branch)))
      as (pre & d & post & Hsorted & Hpre & Hd).
    { by rewrite merge_sort_Permutation. }
    by eapply GetLeaderboard_decode_error.
Qed.

Lemma X14_GetLeaderboard_errors_witness :
  GetLeaderboard find_fails_env plain_request sample_db
  = (sample_db, Rendered 200 (RenderErrorResponse
       (NewErrorResponse "Could not get cursor from db"))) ∧
  GetLeaderboard sample_env plain_request overflow_db
  = (overflow_db, Rendered 200 (RenderErrorResponse
       (NewErrorResponse "Could not decode into leaderboard entry"))).
Proof.
  split.
  - apply (X14_GetLeaderboard_errors find_fails_env plain_request sample_db "senate" eq_refl).
    reflexivity.
  - apply (X14_GetLeaderboard_errors sample_env plain_request overflow_db "senate" eq_refl);
      try reflexivity.
    intros Hall. apply (Forall_lookup_1 _ _ 1 eve) in Hall; [| reflexivity].
    destruct Hall as [c Hc]. vm_compute in Hc. discriminate.
Defined.

Lemma GetAnswers_loop_undecodable (r : Request) (pre post : list Document) (d : Document)
    (b0 b1 b2 b3 : Slice Answer) :
  Forall (λ d, stored_candidate d ∧ questionCount ≤ len (doc_answers d)) pre →
  ¬ stored_candidate d →
  for_each (pre ++ d :: post) (GetAnswers_doc r) [b0; b1; b2; b3]
  = Halt (Rendered (default http_StatusOK (Status r))
            (RenderErrorResponse (NewErrorResponse "Could not decode into candidate"))).
Proof.
  intros Hpre Hd. revert b0 b1 b2 b3.
  induction Hpre as [| p pre [Hp Hlen] _ IH]; intros b0 b1 b2 b3.
  - rewrite app_nil_l, for_each_cons. unfold GetAnswers_doc.
    unfold stored_candidate in Hd. destruct (Decode_Candidate d); [| done].
    destruct Hd. by eexists.
  - rewrite <- app_comm_cons, for_each_cons, (GetAnswers_doc_stored r p _ Hp).
    rewrite (GetAnswers_questions_ok p b0 b1 b2 b3 Hlen). simpl. apply IH.
Qed.

(** X15. [GetAnswers] gives no partial answer sets: when [Find] fails it
    renders the "error" envelope "Could not get cursor from db", and when
    the cursor, after candidates with at least 4 answers each, reaches a
    document that does not decode, it renders the "error" envelope "Could not
    decode into candidate". *)
Theorem X15_GetAnswers_errors (env : Env) (r : Request) (db : Database) (branch : string) :
  Context_Value r "branch" = Some branch →
  (find_err env = true →
     GetAnswers env r db =
       (db, Rendered (default http_StatusOK (Status r))
              (RenderErrorResponse {| ErrorResponse_Status := Error;
                 ErrorResponse_Message := "Could not get cursor from db" |}))) ∧
  (find_err env = false →
   ∀ pre d post,
     delivered env (collection db branch) = pre ++ d :: post →
     Forall (λ d, stored_candidate d ∧ questionCount ≤ len (doc_answers d)) pre →
     ¬ stored_candidate d →
     GetAnswers env r db =
       (db, Rendered (default http_StatusOK (Status r))
              (RenderErrorResponse {| ErrorResponse_Status := Error;
                 ErrorResponse_Message := "Could not decode into candidate" |}))).
Proof.
  intros Hbranch. split.
  - intros Hfind. unfold GetAnswers. by rewrite Hbranch, Find_failed.
  - intros Hfind pre d post Hdocs Hpre Hd.
    unfold GetAnswers. rewrite Hbranch, Find_delivered by done. simpl store_sort.
    rewrite Hdocs.
    pose proof (GetAnswers_loop_undecodable r pre post d None None None None Hpre Hd) as Hloop.
    change (for_each (pre ++ d :: post) (GetAnswers_doc r) [None; None; None; None])
      with (for_each (pre ++ d :: post) (GetAnswers_doc r) answers_zero) in Hloop.
    by rewrite Hloop.
Qed.

Lemma X15_GetAnswers_errors_witness :
  GetAnswers find_fails_env plain_request sample_db
  = (sample_db, Rendered 200 (RenderErrorResponse
       (NewErrorResponse "Could not get cursor from db"))) ∧
  GetAnswers sample_env plain_request overflow_db
  = (overflow_db, Rendered 200 (RenderErrorResponse
       (NewErrorResponse "Could not decode into candidate"))).
Proof.
  split.
  - apply (X15_GetAnswers_errors find_fails_env plain_request sample_db "senate" eq_refl).
    reflexivity.
  - apply (X15_GetAnswers_errors sample_env plain_request overflow_db "senate" eq_refl)
      with (pre := [alice]) (d := eve) (post := [carol]); try reflexivity.
    + repeat constructor; solve [by eexists | vm_compute; lia].
    + intros [c Hc]. vm_compute in Hc. discriminate.
Defined.

(** X17. A submission with fewer than 4 answers passes validation like any
    other; once [PostCandidates] has stored it (status 201), [GetAnswers]
    on that branch ends in the panic "index out of range", at the index
    that is the number of answers submitted, instead of a response. *)
Theorem X17_short_submission_breaks_answers (env env' : Env) (r r' : Request)
    (db : Database) (branch : string) (answers : list string) :
  DecodeErr r = None → Bind (Decoded r) = None →
  CandidateRequest_Answers (Decoded r) = Some answers →
  length answers < questionCount →
  Context_Value r "branch" = Some branch →
  insert_err env = false → new_oid env ∉ (doc_id <$> collection db branch) →
  Context_Value r' "branch" = Some branch →
  find_err env' = false → cursor_break env' = None →
  Forall (λ d, stored_candidate d ∧ questionCount ≤ len (doc_answers d))
    (collection db branch) →
  (PostCandidates env r db).2 =
    Rendered http_StatusCreated (RenderResponse (NewResponseSuccess DataNil)) ∧
  GetAnswers env' r' (PostCandidates env r db).1 =
    ((PostCandidates env r db).1,
     Panicked (PanicIndexOutOfRange (length answers) (length answers))).
Proof.
  intros Hdec Hbind Hanswers Hshort Hbranch Hinsert Hfresh Hbranch' Hfind Hcursor Hdocs.
  assert (Hrun := PostCandidates_past_checks env r db branch).
  unfold render_Bind in Hrun. rewrite Hdec, Hbind in Hrun.
  specialize (Hrun eq_refl eq_refl eq_refl Hbranch).
  rewrite InsertOne_ok in Hrun by done. rewrite Hrun. simpl. split; [done |].
  unfold GetAnswers. rewrite Hbranch', Find_all, collection_insert by done.
  set (d := mkDocument (new_oid env) (CandidateRequest_Name (Decoded r))
              (CandidateRequest_Answers (Decoded r)) 0).
  assert (Hlen : len (doc_answers d) = length answers).
  { unfold d. simpl. by rewrite Hanswers. }
  pose proof (GetAnswers_loop_short r' (collection db branch) [] d None None None None
                Hdocs) as Hloop.
  change (for_each (collection db branch ++ [d]) (GetAnswers_doc r') [None; None; None; None])
    with (for_each (collection db branch ++ [d]) (GetAnswers_doc r') answers_zero) in Hloop.
  rewrite Hloop; [by rewrite Hlen | by eexists | by rewrite Hlen].
Qed.

Lemma X17_short_submission_breaks_answers_witness :
  GetAnswers sample_env plain_request
    (PostCandidates sample_env
       (sample_request "senate" EmptyString (mkCandidateRequest "Bob" (Some []))) sample_db).1
  = ((PostCandidates sample_env
        (sample_request "senate" EmptyString (mkCandidateRequest "Bob" (Some []))) sample_db).1,
     Panicked (PanicIndexOutOfRange 0 0)).
Proof.
  apply (X17_short_submission_breaks_answers sample_env sample_env
           (sample_request "senate" EmptyString (mkCandidateRequest "Bob" (Some [])))
           plain_request sample_db "senate" []); try reflexivity.
  - vm_compute. lia.
  - apply (bool_decide_unpack _). vm_compute. exact I.
  - repeat constructor; solve [by eexists | vm_compute; lia].
Defined.

Lemma for_each_fmap {S X Y} (f : X → Y) (xs : list X) (body : Y → S → Flow S) (s : S) :
  for_each (f <$> xs) body s = for_each xs (λ x, body (f x)) s.
Proof.
  revert s. induction xs as [| x rest IH]; intros s; [done |].
  rewrite fmap_cons, !for_each_cons. destruct (body (f x) s); simpl; [apply IH | done].
Qed.

Lemma for_each_ext {S X} (xs : list X) (body body' : X → S → Flow S) (s : S) :
  (∀ x t, body x t = body' x t) → for_each xs body s = for_each xs body' s.
Proof.
  intros Hbody. revert s. induction xs as [| x rest IH]; intros s; [done |].
  rewrite !for_each_cons, Hbody. destruct (body' x s); simpl; [apply IH | done].
Qed.

Lemma GetAnswers_doc_first_answers (r : Request) (d : Document)
    (answers : list (Slice Answer)) :
  GetAnswers_doc r (first_answers d) answers = GetAnswers_doc r d answers.
Proof.
  unfold GetAnswers_doc, Decode_Candidate. simpl.
  destruct (fits_int32 (doc_votes d)); [| done].
  destruct (doc_answers d) as [[| a0 [| a1 [| a2 [| a3 rest]]]] |]; reflexivity.
Qed.

Lemma collection_first_answers_only (db : Database) (coll : string) :
  collection (first_answers_only db) coll = first_answers <$> collection db coll.
Proof.
  unfold collection, first_answers_only. rewrite lookup_fmap. by destruct (db !! coll).
Qed.

(** X18. [GetAnswers] never shows an answer after the fourth: its response
    is the same as on the store in which every candidate keeps only the
    first 4 answers, whatever the environment does. *)
Theorem X18_GetAnswers_first_answers_only (env : Env) (r : Request) (db : Database) :
  (GetAnswers env r (first_answers_only db)).2 = (GetAnswers env r db).2.
Proof.
  unfold GetAnswers. destruct (Context_Value r "branch") as [branch |]; [| done].
  unfold Find. destruct (find_err env); [done |]. simpl store_sort.
  rewrite collection_first_answers_only.
  assert (Hcur : ∀ docs,
    match cursor_break env with Some n => take n (first_answers <$> docs) | None => first_answers <$> docs end
    = first_answers <$> match cursor_break env with Some n => take n docs | None => docs end).
  { intros docs. destruct (cursor_break env); [by rewrite fmap_take | done]. }
  rewrite Hcur, for_each_fmap.
  rewrite (for_each_ext _ _ (GetAnswers_doc r) _ (GetAnswers_doc_first_answers r)).
  by destruct (for_each _ _ _).
Qed.

(** X19. Round trip: after [PostCandidates] has stored a validated
    submission, [GetCandidates] on that branch lists the candidates that
    were stored before and the new one, with the id it was given, the name
    and the answers as submitted and votes 0, each once and in some order. *)
Theorem X19_PostCandidates_then_GetCandidates (env env' : Env) (r r' : Request)
    (db : Database) (branch : string) :
  DecodeErr r = None → Bind (Decoded r) = None →
  Context_Value r "branch" = Some branch → Context_Value r' "branch" = Some branch →
  insert_err env = false → new_oid env ∉ (doc_id <$> collection db branch) →
  find_err env' = false → cursor_break env' = None →
  Forall stored_candidate (collection db branch) →
  ∃ candidates,
    (GetCandidates env' r' (PostCandidates env r db).1).2 =
      Rendered (default http_StatusOK (Status r'))
        (RenderResponse {| Response_Status := Success;
           Response_Data := DataAny {[ "candidates" := AnyCandidates candidates ]} |}) ∧
    elems candidates ≡ₚ
      (candidate_of <$> collection db branch) ++
      [mkCandidate (new_oid env) (CandidateRequest_Name (Decoded r)) 0
         (CandidateRequest_Answers (Decoded r))].
Proof.
  intros Hdec Hbind Hbranch Hbranch' Hinsert Hfresh Hfind Hcursor Hdocs.
  assert (Hrun := PostCandidates_past_checks env r db branch).
  unfold render_Bind in Hrun. rewrite Hdec, Hbind in Hrun.
  specialize (Hrun eq_refl eq_refl eq_refl Hbranch).
  rewrite InsertOne_ok in Hrun by done. rewrite Hrun. simpl.
  set (db' := <[branch := _]> db).
  destruct (GetCandidates_lists env' r' db' branch Hbranch' Hfind Hcursor)
    as (candidates & -> & Hperm).
  - unfold db'. rewrite collection_insert. apply Forall_app. split; [done |].
    repeat constructor. by eexists.
  - exists candidates. split; [done |]. unfold db' in Hperm.
    by rewrite Hperm, collection_insert, fmap_app.
Qed.

Lemma X19_PostCandidates_then_GetCandidates_witness :
  ∃ candidates,
    (GetCandidates sample_env plain_request
       (PostCandidates sample_env
          (sample_request "senate" EmptyString
             (mkCandidateRequest "Alice" (Some ["a"; "b"; "c"; "d"]))) sample_db).1).2
    = Rendered 200 (RenderResponse (NewResponseSuccess
        (DataAny {[ "candidates" := AnyCandidates candidates ]}))) ∧
    elems candidates ≡ₚ
      [candidate_of alice; candidate_of carol;
       mkCandidate 7%N "Alice" 0 (Some ["a"; "b"; "c"; "d"])].
Proof.
  apply (X19_PostCandidates_then_GetCandidates sample_env sample_env
           (sample_request "senate" EmptyString
              (mkCandidateRequest "Alice" (Some ["a"; "b"; "c"; "d"])))
           plain_request sample_db "senate"); try reflexivity.
  - apply (bool_decide_unpack _). vm_compute. exact I.
  - repeat constructor; by eexists.
Defined.

(** ** Bounds of the shuffle, and what the store keeps *)

Lemma swap_elems_length {T} (i j : nat) (l : list T) :
  length (swap_elems i j l) = length l.
Proof.
  unfold swap_elems. destruct (l !! i), (l !! j); by rewrite ?length_insert.
Qed.

Lemma Shuffle_from_checked {T} (i : nat) (rnd : list nat) (l : list T) :
  i < length l ∨ i = 0 →
  Shuffle_from i swap_checked rnd (Some l) = Some (Shuffle_from i swap_elems rnd l).
Proof.
  revert rnd l. induction i as [| i IH]; intros rnd l Hi; [done |].
  cbn [Shuffle_from].
  set (j := Nat.modulo (hd 0 rnd) (S i + 1)).
  assert (Hj : j < S i + 1) by (apply Nat.mod_upper_bound; lia).
  destruct (lookup_lt_is_Some_2 l (S i)) as [xi Hxi]; [lia |].
  destruct (lookup_lt_is_Some_2 l j) as [xj Hxj]; [lia |].
  assert (Hswap : swap_checked (S i) j (Some l) = Some (swap_elems (S i) j l)).
  { unfold swap_checked, swap_elems. by rewrite Hxi, Hxj. }
  rewrite Hswap. apply IH. rewrite swap_elems_length. lia.
Qed.

(** X20. [randomize] never indexes its slice out of range: run with Go's
    bounds checks on every [x[i]] and [x[j]] of the swap, the shuffle of a
    slice of any length, for any random draws, ends without a panic and
    gives the slice that [randomize] gives. *)
Theorem X20_randomize_in_bounds {T} (rnd : list nat) (l : list T) :
  Shuffle (length l) swap_checked rnd (Some l) = randomize rnd (Some l).
Proof.
  unfold randomize, Shuffle. simpl. apply Shuffle_from_checked. lia.
Qed.

Lemma PostCandidates_inserted_fresh (env : Env) (r : Request) (db : Database)
    (branch : string) :
  Context_Value r "branch" = Some branch →
  (PostCandidates env r db).1 = db ∨ new_oid env ∉ (doc_id <$> collection db branch).
Proof.
  intros Hbranch. unfold PostCandidates. destruct (render_Bind r) as [data err].
  destruct (errors_Is err ErrMissingName); [by left |].
  destruct (errors_Is err ErrMissingAnswers || errors_Is err ErrAnswersTooLong); [by left |].
  rewrite Hbranch. unfold InsertOne.
  destruct (insert_err env); simpl; [by left |].
  case_bool_decide; [by left | by right].
Qed.

(** X21. The writing handlers keep a collection sound: if its ids are
    unique and its votes are not negative before a [PostCandidates] or a
    [PatchVotes] request, they are so after it, whatever the request and
    the environment. *)
Theorem X21_writes_keep_collection_sound (h : Handler) (env : Env) (r : Request)
    (db : Database) (coll : string) :
  h ∈ [PostCandidates; PatchVotes] →
  sound_collection (collection db coll) →
  sound_collection (collection (h env r db).1 coll).
Proof.
  rewrite !elem_of_cons, elem_of_nil. intros [-> | [-> | []]] [Hids Hvotes].
  - destruct (PostCandidates_store env r db) as [[-> _] | (branch & Hbranch & Hrun)];
      [done |].
    destruct (PostCandidates_inserted_fresh env r db branch Hbranch) as [-> | Hfresh];
      [done |].
    rewrite Hrun. simpl. destruct (decide (branch = coll)) as [-> | Hne].
    + rewrite collection_insert. split.
      * rewrite fmap_app. apply NoDup_app. split; [done |]. split.
        -- intros id Hid [-> | []%elem_of_nil]%elem_of_cons. done.
        -- apply NoDup_singleton.
      * apply Forall_app. split; [done |]. by repeat constructor.
    + by rewrite collection_insert_ne.
  - destruct (PatchVotes_store env r db) as [[-> _] | (id & branch & _ & _ & _ & ->)];
      [done |].
    simpl. destruct (decide (branch = coll)) as [-> | Hne].
    + rewrite collection_alter by done.
      destruct (update_first_cases id (IncVotes 1) (collection db coll))
        as [-> | (pre & d & post & Hdocs & _ & _ & ->)]; [done |].
      rewrite Hdocs in Hids, Hvotes. split.
      * by rewrite fmap_app, fmap_cons in *.
      * apply Forall_app in Hvotes as [Hpre [Hd Hpost]%Forall_cons].
        apply Forall_app. split; [done |]. constructor; [simpl; lia | done].
    + unfold collection. by rewrite lookup_alter_ne.
Qed.

Lemma X21_writes_keep_collection_sound_witness :
  sound_collection
    (collection
       (PatchVotes sample_env
          (sample_request "senate" "000000000000000000000002"
             (mkCandidateRequest EmptyString None)) sample_db).1 "senate").
Proof.
  apply (X21_writes_keep_collection_sound PatchVotes sample_env
           (sample_request "senate" "000000000000000000000002"
              (mkCandidateRequest EmptyString None)) sample_db "senate").
  - apply list_elem_of_further, list_elem_of_here.
  - split.
    + apply (bool_decide_unpack _). vm_compute. exact I.
    + repeat constructor; vm_compute; discriminate.
Defined.
